(** * Climatrail backend: the /weather request handler

    A shallow embedding of [backend/app.py] and the properties its
    behaviour contract states about it.

    Python values are modelled as decoded JSON ([pyval]); Python exceptions
    as values of an error monad ([Exc]); the two outbound HTTP calls, the
    clock and the date parser as a [World] the handler is run in, with the
    outbound requests recorded in a log ([Eff]). *)

From Stdlib Require Import ZArith String Ascii List SpecFloat Lia.
From stdpp Require Import base option gmap strings list pretty.

#[local] Set Warnings "-register-all".
#[local] Open Scope string_scope.
#[local] Open Scope Z_scope.

(* ===================================================================== *)
(** ** Python exceptions and the error monad                              *)
(* ===================================================================== *)

(** The exception classes the handler can meet. All of them derive from
    [Exception], so a handler [except Exception] catches every [exn]. *)
Inductive exn_class :=
| TypeError | ValueError | KeyError | AttributeError | NameError | OverflowError
| ZeroDivisionError | HTTPError | ConnectionError | Timeout | JSONDecodeError
| BadRequest.

(** [exn_str e] is [str(e)]. *)
Record exn := Exn { exn_cls : exn_class; exn_str : string }.

(** A computation that returns a value or raises. *)
Definition Exc (A : Type) : Type := exn + A.

Definition raise {A} (c : exn_class) (msg : string) : Exc A := inl (Exn c msg).

#[global] Instance Exc_ret : MRet Exc := fun A x => inr x.
#[global] Instance Exc_bind : MBind Exc :=
  fun A B f m => match m with inl e => inl e | inr x => f x end.

(* ===================================================================== *)
(** ** Python values                                                      *)
(* ===================================================================== *)

(** Scalars. A [float] is an IEEE 754 binary64 value; a [str] is held as its
    UTF-8 bytes. *)
Inductive atom :=
| ANone
| ABool (b : bool)
| AInt (n : Z)
| AFloat (f : spec_float)
| AStr (s : string).

(** Decoded JSON: scalars, arrays of scalars, objects. *)
Inductive pyval :=
| PAtom (a : atom)
| PList (items : list atom)
| PDict (d : gmap string pyval).

Coercion PAtom : atom >-> pyval.

Definition atom_type_name (a : atom) : string :=
  match a with
  | ANone => "NoneType"
  | ABool _ => "bool"
  | AInt _ => "int"
  | AFloat _ => "float"
  | AStr _ => "str"
  end.

Definition type_name (v : pyval) : string :=
  match v with
  | PAtom a => atom_type_name a
  | PList _ => "list"
  | PDict _ => "dict"
  end.

(** Truth value testing, as [bool(v)]. *)
Definition atom_truthy (a : atom) : bool :=
  match a with
  | ANone => false
  | ABool b => b
  | AInt n => negb (n =? 0)
  | AFloat (S754_zero _) => false
  | AFloat _ => true
  | AStr s => negb (String.eqb s "")
  end.

Definition truthy (v : pyval) : bool :=
  match v with
  | PAtom a => atom_truthy a
  | PList items => match items with [] => false | _ :: _ => true end
  | PDict d => negb (Nat.eqb (size d) 0)
  end.

(** *** Numbers *)

Definition prec64 : Z := 53.
Definition emax64 : Z := 1024.

(** The exact value of a number: [XFin m e] is [m * 2^e]. *)
Inductive xnum :=
| XNaN
| XInf (negative : bool)
| XFin (m e : Z).

Definition float_exact (f : spec_float) : xnum :=
  match f with
  | S754_zero _ => XFin 0 0
  | S754_infinity s => XInf s
  | S754_nan => XNaN
  | S754_finite s m e => XFin (if s then Z.neg m else Z.pos m) e
  end.

(** [bool] is a subclass of [int]: [True] is 1 and [False] is 0. *)
Definition atom_exact (a : atom) : option xnum :=
  match a with
  | ABool b => Some (XFin (if b then 1 else 0) 0)
  | AInt n => Some (XFin n 0)
  | AFloat f => Some (float_exact f)
  | ANone | AStr _ => None
  end.

Definition is_number (a : atom) : bool :=
  match atom_exact a with Some _ => true | None => false end.

(** Comparison of exact values; [None] when a NaN is involved. Python
    compares an [int] with a [float] by value, without rounding. *)
Definition xcompare (x y : xnum) : option comparison :=
  match x, y with
  | XNaN, _ | _, XNaN => None
  | XInf s1, XInf s2 =>
      Some (match s1, s2 with
            | true, false => Lt
            | false, true => Gt
            | _, _ => Eq
            end)
  | XInf s, XFin _ _ => Some (if s then Lt else Gt)
  | XFin _ _, XInf s => Some (if s then Gt else Lt)
  | XFin m1 e1, XFin m2 e2 =>
      let e := Z.min e1 e2 in
      Some ((m1 * 2 ^ (e1 - e)) ?= (m2 * 2 ^ (e2 - e)))
  end.

Definition not_supported (op : string) (a b : atom) : exn :=
  Exn TypeError ("'" ++ op ++ "' not supported between instances of '"
                 ++ atom_type_name a ++ "' and '" ++ atom_type_name b ++ "'").

(** [a > b] and [a < b]. Numbers compare by value, strings by code point
    (which is the byte order of their UTF-8 form); anything else raises. *)
Definition py_compare (op : string) (want : comparison) (a b : atom) : Exc bool :=
  match atom_exact a, atom_exact b with
  | Some x, Some y =>
      mret (match xcompare x y with
            | Some c => bool_decide (c = want)
            | None => false
            end)
  | _, _ =>
      match a, b with
      | AStr s1, AStr s2 => mret (bool_decide (String.compare s1 s2 = want))
      | _, _ => inl (not_supported op a b)
      end
  end.

Definition py_gt : atom -> atom -> Exc bool := py_compare ">" Gt.
Definition py_lt : atom -> atom -> Exc bool := py_compare "<" Lt.

(** [float(n)] for an [int]: rounded to nearest even, [OverflowError] when
    the result is not finite. *)
Definition float_of_int (n : Z) : Exc spec_float :=
  match binary_normalize prec64 emax64 n 0 false with
  | S754_infinity _ => raise OverflowError "int too large to convert to float"
  | f => mret f
  end.

(** The operands of an arithmetic operation, once known to be numbers. *)
Inductive number :=
| NInt (n : Z)
| NFloat (f : spec_float).

Definition atom_number (a : atom) : option number :=
  match a with
  | ABool b => Some (NInt (if b then 1 else 0))
  | AInt n => Some (NInt n)
  | AFloat f => Some (NFloat f)
  | ANone | AStr _ => None
  end.

Definition number_atom (x : number) : atom :=
  match x with
  | NInt n => AInt n
  | NFloat f => AFloat f
  end.

Definition number_float (x : number) : Exc spec_float :=
  match x with
  | NInt n => float_of_int n
  | NFloat f => mret f
  end.

Definition unsupported_operand (op : string) (a b : atom) : exn :=
  Exn TypeError ("unsupported operand type(s) for " ++ op ++ ": '"
                 ++ atom_type_name a ++ "' and '" ++ atom_type_name b ++ "'").

(** [a + b]. *)
Definition py_add (a b : atom) : Exc atom :=
  match atom_number a, atom_number b with
  | Some (NInt m), Some (NInt n) => mret (AInt (m + n))
  | Some x, Some y =>
      fx ← number_float x;
      fy ← number_float y;
      mret (AFloat (SFadd prec64 emax64 fx fy))
  | _, _ => inl (unsupported_operand "+" a b)
  end.

Definition int_as_float (n : Z) : spec_float :=
  match n with
  | Z0 => S754_zero false
  | Zpos p => S754_finite false p 0
  | Zneg p => S754_finite true p 0
  end.

(** [a / b], true division. The quotient of two ints is the correctly
    rounded quotient of their exact values. *)
Definition py_truediv (a b : atom) : Exc atom :=
  match atom_number a, atom_number b with
  | Some (NInt m), Some (NInt n) =>
      if n =? 0 then raise ZeroDivisionError "division by zero"
      else
        match SFdiv prec64 emax64 (int_as_float m) (int_as_float n) with
        | S754_infinity _ =>
            raise OverflowError "integer division result too large for a float"
        | f => mret (AFloat f)
        end
  | Some x, Some y =>
      fx ← number_float x;
      fy ← number_float y;
      match fy with
      | S754_zero _ => raise ZeroDivisionError "float division by zero"
      | _ => mret (AFloat (SFdiv prec64 emax64 fx fy))
      end
  | _, _ => inl (unsupported_operand "/" a b)
  end.

(** *** Strings *)

(** A str is iterated code point by code point. In UTF-8 a code point is a
    lead byte followed by its continuation bytes (10xxxxxx). *)
Definition is_continuation (c : ascii) : bool :=
  let n := Z.of_nat (nat_of_ascii c) in (128 <=? n) && (n <? 192).

Fixpoint utf8_split (s : string) : string * list string :=
  match s with
  | EmptyString => (EmptyString, [])
  | String c rest =>
      let '(k, cs) := utf8_split rest in
      if is_continuation c then (String c k, cs)
      else (EmptyString, String c k :: cs)
  end.

Definition utf8_chars (s : string) : list string := snd (utf8_split s).

(** The items an iteration over [v] yields: the elements of a list, the
    characters of a str, the keys of a dict. *)
Definition py_iter (v : pyval) : Exc (list atom) :=
  match v with
  | PList items => mret items
  | PAtom (AStr s) => mret (AStr <$> utf8_chars s)
  | PDict d => mret (AStr <$> (map_to_list d).*1)
  | PAtom a =>
      raise TypeError ("'" ++ atom_type_name a ++ "' object is not iterable")
  end.

(** *** Builtins *)

Fixpoint sum_items (acc : atom) (items : list atom) : Exc atom :=
  match items with
  | [] => mret acc
  | x :: rest => acc' ← py_add acc x; sum_items acc' rest
  end.

(** [sum(v)]: the items added left to right onto the int 0. *)
Definition py_sum (v : pyval) : Exc atom :=
  items ← py_iter v;
  sum_items (AInt 0) items.

(** [len(v)]. *)
Definition py_len (v : pyval) : Exc atom :=
  match v with
  | PList items => mret (AInt (Z.of_nat (length items)))
  | PDict d => mret (AInt (Z.of_nat (size d)))
  | PAtom (AStr s) => mret (AInt (Z.of_nat (length (utf8_chars s))))
  | PAtom a =>
      raise TypeError ("object of type '" ++ atom_type_name a ++ "' has no len()")
  end.

Fixpoint max_items (best : atom) (items : list atom) : Exc atom :=
  match items with
  | [] => mret best
  | x :: rest =>
      greater ← py_gt x best;
      max_items (if greater : bool then x else best) rest
  end.

(** [max(v)] of one iterable: the first item is kept until a later one
    compares greater. *)
Definition py_max (v : pyval) : Exc atom :=
  items ← py_iter v;
  match items with
  | [] => raise ValueError "max() arg is an empty sequence"
  | x :: rest => max_items x rest
  end.

(** Looking up the method [v.get]: only a dict has it. *)
Definition py_get_method (v : pyval) : Exc (gmap string pyval) :=
  match v with
  | PDict d => mret d
  | _ =>
      raise AttributeError ("'" ++ type_name v ++ "' object has no attribute 'get'")
  end.

(** [v.get(key, default)] and [v.get(key)]. *)
Definition py_get_default (v : pyval) (key : string) (dflt : pyval) : Exc pyval :=
  d ← py_get_method v;
  mret (default dflt (d !! key)).

Definition py_get (v : pyval) (key : string) : Exc pyval :=
  py_get_default v key ANone.

(** [v[key]] with a str key. [str(KeyError(key))] is the repr of the key. *)
Definition py_getitem (v : pyval) (key : string) : Exc pyval :=
  match v with
  | PDict d =>
      match d !! key with
      | Some x => mret x
      | None => raise KeyError ("'" ++ key ++ "'")
      end
  | PList _ =>
      raise TypeError "list indices must be integers or slices, not str"
  | PAtom (AStr _) =>
      raise TypeError "string indices must be integers, not 'str'"
  | PAtom a =>
      raise TypeError ("'" ++ atom_type_name a ++ "' object is not subscriptable")
  end.

(** *** Format specification [.2f] *)

(** [n / d] rounded to the nearest integer, ties to even; [0 <= n], [0 < d]. *)
Definition div_half_even (n d : Z) : Z :=
  let q := n / d in
  let r := n mod d in
  if 2 * r <? d then q
  else if d <? 2 * r then q + 1
  else if Z.even q then q else q + 1.

(** The magnitude [m * 2^e] in hundredths, correctly rounded. *)
Definition hundredths (m e : Z) : Z :=
  if 0 <=? e then m * 2 ^ e * 100 else div_half_even (m * 100) (2 ^ (- e)).

Definition two_digits (n : Z) : string :=
  if n <? 10 then "0" ++ pretty n else pretty n.

Definition fixed2 (negative : bool) (h : Z) : string :=
  (if negative then "-" else "") ++ pretty (h / 100) ++ "." ++ two_digits (h mod 100).

Definition float_format_2f (f : spec_float) : string :=
  match f with
  | S754_nan => "nan"
  | S754_infinity s => if s then "-inf" else "inf"
  | S754_zero s => fixed2 s 0
  | S754_finite s m e => fixed2 s (hundredths (Z.pos m) e)
  end.

(** [format(v, ".2f")], as in the replacement field [{v:.2f}]. An int is
    converted to float first. *)
Definition format_2f (v : pyval) : Exc string :=
  match v with
  | PAtom (AStr _) =>
      raise ValueError "Unknown format code 'f' for object of type 'str'"
  | PAtom a =>
      match atom_number a with
      | Some x => f ← number_float x; mret (float_format_2f f)
      | None =>
          raise TypeError ("unsupported format string passed to "
                           ++ atom_type_name a ++ ".__format__")
      end
  | _ =>
      raise TypeError ("unsupported format string passed to "
                       ++ type_name v ++ ".__format__")
  end.

(** *** [str(v)] *)

(** Converting an int to its decimal text raises [ValueError] when the text
    has more than 4300 digits, that is from [10 ^ 4300] on in magnitude. *)
Definition max_str_digits : Z := 4300.

Definition int_str_raises (n : Z) : bool := 10 ^ max_str_digits <=? Z.abs n.

Definition atom_str_raises (a : atom) : bool :=
  match a with
  | AInt n => int_str_raises n
  | _ => false
  end.

(** The text of a list or of a dict holds the text of what is in it. *)
Fixpoint str_raises (v : pyval) : bool :=
  match v with
  | PAtom a => atom_str_raises a
  | PList items => existsb atom_str_raises items
  | PDict d => map_fold (fun _ x found => str_raises x || found) false d
  end.

(** [str(v)], as far as raising goes; the text itself stays symbolic. *)
Definition py_str (v : pyval) : Exc unit :=
  if str_raises v then
    raise ValueError ("Exceeds the limit (4300 digits) for integer string "
                      ++ "conversion; use sys.set_int_max_str_digits() to "
                      ++ "increase the limit")
  else mret tt.

(** *** Calling a lambda *)

(** A parameter list [a, b, *args, k, **kwargs]: parameters written after
    [*args] are keyword-only. None of the lambdas here has a default. *)
Record signature := Signature {
  positional : list string;
  var_positional : option string;
  keyword_only : list string;
  var_keyword : option string
}.

Record lambda := Lambda {
  params : signature;
  body : gmap string pyval -> Exc bool
}.

Definition quoted (names : list string) : list string :=
  (fun n => "'" ++ n ++ "'") <$> names.

(** The names in a missing-argument message: ['a'], ['a' and 'b'],
    ['a', 'b', and 'c']. *)
Fixpoint name_list (names : list string) : string :=
  match names with
  | [] => ""
  | [a] => a
  | [a; b] => a ++ " and " ++ b
  | a :: rest =>
      match rest with
      | [b] => a ++ ", and " ++ b
      | _ => a ++ ", " ++ name_list rest
      end
  end.

Definition plural (n : nat) : string := if Nat.eqb n 1 then "" else "s".

Definition missing_arguments (kind : string) (names : list string) : exn :=
  Exn TypeError ("<lambda>() missing " ++ pretty (length names) ++ " required "
                 ++ kind ++ " argument" ++ plural (length names) ++ ": "
                 ++ name_list (quoted names)).

Definition too_many_positional (takes given : nat) : exn :=
  Exn TypeError ("<lambda>() takes " ++ pretty takes ++ " positional argument"
                 ++ plural takes ++ " but " ++ pretty given
                 ++ (if Nat.eqb given 1 then " was" else " were") ++ " given").

Definition bind_names (names : list string) (values : list atom)
    (env : gmap string pyval) : gmap string pyval :=
  foldr (fun '(n, v) e => <[n := PAtom v]> e) env (zip names values).

(** Argument binding for a call [f(a1, ..., an)] that passes positional
    arguments only. *)
Definition bind_arguments (sig : signature) (args : list atom)
    : Exc (gmap string pyval) :=
  let np := length (positional sig) in
  let extra := drop np args in
  if bool_decide (var_positional sig = None) && negb (Nat.eqb (length extra) 0)
  then inl (too_many_positional np (length args))
  else if negb (Nat.eqb (length (drop (length args) (positional sig))) 0)
  then inl (missing_arguments "positional" (drop (length args) (positional sig)))
  else if negb (Nat.eqb (length (keyword_only sig)) 0)
  then inl (missing_arguments "keyword-only" (keyword_only sig))
  else
    let env := bind_names (positional sig) args ∅ in
    let env := match var_positional sig with
               | Some n => <[n := PList extra]> env
               | None => env
               end in
    let env := match var_keyword sig with
               | Some n => <[n := PDict ∅]> env
               | None => env
               end in
    mret env.

Definition call (f : lambda) (args : list atom) : Exc bool :=
  env ← bind_arguments (params f) args;
  body f env.

(** Reading a bound parameter in a lambda body. *)
Definition var (env : gmap string pyval) (name : string) : Exc pyval :=
  match env !! name with
  | Some v => mret v
  | None => raise NameError ("name '" ++ name ++ "' is not defined")
  end.

(** [v > c] and [v < c] against an int constant, for a bound value. *)
Definition compare_const (cmp : atom -> atom -> Exc bool) (op : string)
    (v : pyval) (c : Z) : Exc bool :=
  match v with
  | PAtom a => cmp a (AInt c)
  | _ =>
      raise TypeError ("'" ++ op ++ "' not supported between instances of '"
                       ++ type_name v ++ "' and 'int'")
  end.

(* ===================================================================== *)
(** ** The condition rules and the classifier                             *)
(* ===================================================================== *)

(** One row of [CONDITION_RULES]:
    [(label, rule, icon, risk, advice, color)]. *)
Record ConditionRule := Rule {
  rule_label : string;
  rule : lambda;
  rule_icon : string;
  rule_risk : string;
  rule_advice : string;
  rule_color : string
}.

(** The dict appended to [results] for a rule that matched. *)
Record ConditionMatch := Match {
  label : string;
  icon : string;
  risk : string;
  advice : string;
  color : string
}.

(** [lambda t, *_: t > 35] *)
Definition very_hot_rule : lambda :=
  Lambda (Signature ["t"] (Some "_") [] None)
         (fun env => t ← var env "t"; compare_const py_gt ">" t 35).

(** [lambda t, *_: t < 5] *)
Definition very_cold_rule : lambda :=
  Lambda (Signature ["t"] (Some "_") [] None)
         (fun env => t ← var env "t"; compare_const py_lt "<" t 5).

(** [lambda _, w, *__: w > 40] *)
Definition very_windy_rule : lambda :=
  Lambda (Signature ["_"; "w"] (Some "__") [] None)
         (fun env => w ← var env "w"; compare_const py_gt ">" w 40).

(** [lambda *_, p, **__: p > 10] *)
Definition very_wet_rule : lambda :=
  Lambda (Signature [] (Some "_") ["p"] (Some "__"))
         (fun env => p ← var env "p"; compare_const py_gt ">" p 10).

(** [lambda *_, h: h > 80] *)
Definition very_uncomfortable_rule : lambda :=
  Lambda (Signature [] (Some "_") ["h"] None)
         (fun env => h ← var env "h"; compare_const py_gt ">" h 80).

Definition CONDITION_RULES : list ConditionRule := [
  Rule "Very Hot" very_hot_rule "☀️" "⚠️ Very Hot"
       "Pack extra water and sunscreen." "red";
  Rule "Very Cold" very_cold_rule "❄️" "⚠️ Very Cold"
       "Dress warmly and watch for ice." "blue";
  Rule "Very Windy" very_windy_rule "💨" "⚠️ Very Windy"
       "Secure loose items and avoid open areas." "gray";
  Rule "Very Wet" very_wet_rule "🌧️" "⚠️ Very Wet"
       "Bring rain gear and waterproof shoes." "darkblue";
  Rule "Very Uncomfortable" very_uncomfortable_rule "😓" "⚠️ Very Uncomfortable"
       "Stay hydrated and take breaks." "orange"
].

Definition render (r : ConditionRule) : ConditionMatch :=
  {| label := rule_label r;
     icon := rule_icon r;
     risk := rule_risk r;
     advice := rule_advice r;
     color := rule_color r |}.

(** The [for] loop of [classify_conditions] over the rules still to be
    visited, with [results] as accumulated so far. *)
Fixpoint classify_loop (rules : list ConditionRule) (args : list atom)
    (results : list ConditionMatch) : Exc (list ConditionMatch) :=
  match rules with
  | [] => mret results
  | r :: rest =>
      matched ← call (rule r) args;
      classify_loop rest args
        (if matched : bool then results ++ [render r] else results)
  end.

Definition classify_conditions (temp wind precip humidity : atom)
    : Exc (list ConditionMatch) :=
  classify_loop CONDITION_RULES [temp; wind; precip; humidity] [].

(* ===================================================================== *)
(** ** The summary                                                        *)
(* ===================================================================== *)

Definition label_in (labels : list string) (c : ConditionMatch) : bool :=
  existsb (String.eqb (label c)) labels.

Definition get_summary (conditions : list ConditionMatch) : string :=
  match conditions with
  | [] => "Great day for outdoor activities!"
  | _ :: _ =>
      if existsb (label_in ["Very Hot"; "Very Wet"; "Very Uncomfortable"]) conditions
      then "This day looks uncomfortable for hiking. Best to plan indoors."
      else if existsb (fun c => String.eqb (label c) "Very Windy") conditions
      then "Windy conditions. Caution advised for outdoor events."
      else if existsb (fun c => String.eqb (label c) "Very Cold") conditions
      then "Dress warmly for outdoor activities."
      else "Check conditions before heading out."
  end.

(* ===================================================================== *)
(** ** The world of a request: clock, date parser, network                *)
(* ===================================================================== *)

(** A calendar date, as [datetime.date]. *)
Record pydate := Date { year : Z; month : Z; day : Z }.

(** [d1 < d2] on dates: by year, then month, then day. *)
Definition date_ltb (d1 d2 : pydate) : bool :=
  (year d1 <? year d2)
  || ((year d1 =? year d2)
      && ((month d1 <? month d2)
          || ((month d1 =? month d2) && (day d1 <? day d2)))).

(** A piece of an f-string: literal text, or [str(v)] of a value. *)
Inductive fragment :=
| Lit (s : string)
| Str (v : pyval).

(** Evaluating an f-string: each value in it is converted by [str], left to
    right. *)
Fixpoint eval_fstring (fragments : list fragment) : Exc unit :=
  match fragments with
  | [] => mret tt
  | Lit _ :: rest => eval_fstring rest
  | Str v :: rest => _ ← py_str v; eval_fstring rest
  end.

(** An outbound [pyrequests.get(url, params=..., headers=..., timeout=...)]. *)
Record Request := {
  url : list fragment;
  query : list (string * pyval);
  headers : list (string * string);
  timeout : Z
}.

(** What comes back: the status line, the final URL and what [json()] does
    on the body. *)
Record Response := {
  status_code : Z;
  reason : string;
  final_url : string;
  json : Exc pyval
}.

(** [resp.raise_for_status()]: [HTTPError] on a 4xx or 5xx status. *)
Definition raise_for_status (resp : Response) : Exc unit :=
  if (400 <=? status_code resp) && (status_code resp <? 500) then
    raise HTTPError (pretty (status_code resp) ++ " Client Error: "
                     ++ reason resp ++ " for url: " ++ final_url resp)
  else if (500 <=? status_code resp) && (status_code resp <? 600) then
    raise HTTPError (pretty (status_code resp) ++ " Server Error: "
                     ++ reason resp ++ " for url: " ++ final_url resp)
  else mret tt.

(** [resp.ok]: whether [raise_for_status] would pass. *)
Definition ok (resp : Response) : bool :=
  match raise_for_status resp with
  | inl _ => false
  | inr _ => true
  end.

(** Everything outside the process that a request depends on. [http_get]
    either raises (connection error, timeout) or yields a response;
    [strptime] is [datetime.strptime(s, "%Y-%m-%d")] on a str, giving the
    date parsed or raising [ValueError]. *)
Record World := {
  utcnow_date : pydate;
  strptime : string -> Exc pydate;
  http_get : Request -> Exc Response
}.

(** A computation that may raise and that logs its outbound requests. *)
Definition Eff (A : Type) : Type := list Request -> Exc A * list Request.

#[global] Instance Eff_ret : MRet Eff := fun A x log => (inr x, log).
#[global] Instance Eff_bind : MBind Eff :=
  fun A B f m log =>
    match m log with
    | (inl e, log') => (inl e, log')
    | (inr x, log') => f x log'
    end.

Definition lift {A} (m : Exc A) : Eff A := fun log => (m, log).

(** [try: m / except Exception as e: ...], with the outcome handed on. *)
Definition attempt {A} (m : Eff A) : Eff (Exc A) :=
  fun log => let '(r, log') := m log in (inr r, log').

Definition pyrequests_get (w : World) (req : Request) : Eff Response :=
  fun log => (http_get w req, (log ++ [req])%list).

(* ===================================================================== *)
(** ** Location name                                                      *)
(* ===================================================================== *)

(** [f"{lat:.2f}, {lon:.2f}"] *)
Definition coordinates_text (lat lon : pyval) : Exc string :=
  a ← format_2f lat;
  b ← format_2f lon;
  mret (a ++ ", " ++ b).

Definition geocode_request (lat lon : pyval) : Request :=
  {| url := [Lit "https://nominatim.openstreetmap.org/reverse?lat="; Str lat;
             Lit "&lon="; Str lon; Lit "&format=json"];
     query := [];
     headers := [("User-Agent", "weather-app")];
     timeout := 5 |}.

(** The body of the [try] in [get_location_name]: [Some v] when it returns
    [v], [None] when it falls through. The URL is an f-string, evaluated
    before the request is made. *)
Definition lookup_display_name (w : World) (lat lon : pyval) : Eff (option pyval) :=
  _ ← lift (eval_fstring (url (geocode_request lat lon)));
  resp ← pyrequests_get w (geocode_request lat lon);
  if ok resp then
    data ← lift (json resp);
    d ← lift (py_get_method data);
    dflt ← lift (coordinates_text lat lon);
    mret (Some (default (PAtom (AStr dflt)) (d !! "display_name")))
  else mret None.

Definition get_location_name (w : World) (lat lon : pyval) : Eff pyval :=
  tried ← attempt (lookup_display_name w lat lon);
  match tried with
  | inr (Some name) => mret name
  | inr None | inl _ =>
      text ← lift (coordinates_text lat lon);
      mret (PAtom (AStr text))
  end.

(* ===================================================================== *)
(** ** The /weather endpoint                                              *)
(* ===================================================================== *)

Inductive Body :=
| ErrorBody (error : string)
| WeatherBody (location_name date_field : pyval) (summary : string)
              (conditions : list ConditionMatch).

(** [jsonify(body), status]. *)
Record Reply := { reply_body : Body; reply_status : Z }.

Definition archive_url : string := "https://archive-api.open-meteo.com/v1/archive".
Definition forecast_url : string := "https://api.open-meteo.com/v1/forecast".

Definition weather_request (base_url : string) (lat lon date : pyval) : Request :=
  {| url := [Lit base_url];
     query := [("latitude", lat); ("longitude", lon);
               ("start_date", date); ("end_date", date);
               ("hourly", PAtom (AStr
                  "temperature_2m,windspeed_10m,precipitation,relativehumidity_2m"));
               ("timezone", PAtom (AStr "auto"))];
     headers := [];
     timeout := 10 |}.

(** [datetime.strptime(date, "%Y-%m-%d")]: the first argument must be a str. *)
Definition parse_date (w : World) (date : pyval) : Exc pydate :=
  match date with
  | PAtom (AStr s) => strptime w s
  | _ =>
      raise TypeError ("strptime() argument 1 must be str, not " ++ type_name date)
  end.

(** [sum(h[key]) / len(h[key]) if h.get(key) else 0] *)
Definition mean_or_zero (h : pyval) (key : string) : Exc atom :=
  present ← py_get h key;
  if truthy present then
    xs ← py_getitem h key;
    total ← py_sum xs;
    ys ← py_getitem h key;
    count ← py_len ys;
    py_truediv total count
  else mret (AInt 0).

(** [max(h[key]) if h.get(key) else 0] *)
Definition max_or_zero (h : pyval) (key : string) : Exc atom :=
  present ← py_get h key;
  if truthy present then
    xs ← py_getitem h key;
    py_max xs
  else mret (AInt 0).

Record DailyMetrics := Metrics {
  temp : atom;
  wind : atom;
  precip : atom;
  humidity : atom
}.

(** The daily figures taken from the decoded provider body. *)
Definition daily_metrics (weather_json : pyval) : Exc DailyMetrics :=
  h ← py_getitem weather_json "hourly";
  temp ← mean_or_zero h "temperature_2m";
  wind ← max_or_zero h "windspeed_10m";
  series ← py_get_default h "precipitation" (PList [AInt 0]);
  precip ← py_sum series;
  humidity ← mean_or_zero h "relativehumidity_2m";
  mret (Metrics temp wind precip humidity).

(** The body of the second [try] in [weather]. *)
Definition fetch_metrics (w : World) (base_url : string) (lat lon date : pyval)
    : Eff DailyMetrics :=
  resp ← pyrequests_get w (weather_request base_url lat lon date);
  _ ← lift (raise_for_status resp);
  weather_json ← lift (json resp);
  lift (daily_metrics weather_json).

Definition missing_reply : Reply :=
  {| reply_body := ErrorBody "Missing lat, lon, or date"; reply_status := 400 |}.

Definition invalid_date_reply : Reply :=
  {| reply_body := ErrorBody "Invalid date format, use YYYY-MM-DD";
     reply_status := 400 |}.

Definition unavailable_reply (e : exn) : Reply :=
  {| reply_body := ErrorBody ("Weather data unavailable: " ++ exn_str e);
     reply_status := 502 |}.

(** The view function, applied to the decoded request body. An exception it
    does not catch leaves it as the [inl] of the result. *)
Definition weather (w : World) (data : pyval) : Eff Reply :=
  lat ← lift (py_get data "lat");
  lon ← lift (py_get data "lon");
  date ← lift (py_get data "date");
  if negb (truthy lat && truthy lon && truthy date) then mret missing_reply
  else
    match parse_date w date with
    | inl _ => mret invalid_date_reply
    | inr dt =>
        let today := utcnow_date w in
        let is_past := date_ltb dt today in
        let base_url := if is_past then archive_url else forecast_url in
        fetched ← attempt (fetch_metrics w base_url lat lon date);
        match fetched with
        | inl e => mret (unavailable_reply e)
        | inr m =>
            conditions ← lift (classify_conditions (temp m) (wind m)
                                                   (precip m) (humidity m));
            location_name ← get_location_name w lat lon;
            let summary := get_summary conditions in
            mret {| reply_body := WeatherBody location_name date summary conditions;
                    reply_status := 200 |}
        end
    end.

(** The view function from the request on: [request.get_json(force=True)]
    yields the decoded body or raises [BadRequest] on a body that is not
    JSON; [request_json] is what it does. *)
Definition weather_view (w : World) (request_json : Exc pyval) : Eff Reply :=
  data ← lift request_json;
  weather w data.

(** Running a handler from an empty request log. *)
Definition run {A} (m : Eff A) : Exc A * list Request := m [].

(* ===================================================================== *)
(** ** Vocabulary of the behaviour contract                               *)
(* ===================================================================== *)

Definition has_label (l : string) (cs : list ConditionMatch) : Prop :=
  exists c, c ∈ cs /\ label c = l.

(** Every element is the rendering of a row of [CONDITION_RULES]. *)
Definition rendered_from_rules (cs : list ConditionMatch) : Prop :=
  forall c, c ∈ cs -> exists r, r ∈ CONDITION_RULES /\ c = render r.

(** The five matches, as the classifier would render them. *)
Definition hot : ConditionMatch :=
  Match "Very Hot" "☀️" "⚠️ Very Hot" "Pack extra water and sunscreen." "red".
Definition cold : ConditionMatch :=
  Match "Very Cold" "❄️" "⚠️ Very Cold" "Dress warmly and watch for ice." "blue".
Definition windy : ConditionMatch :=
  Match "Very Windy" "💨" "⚠️ Very Windy"
        "Secure loose items and avoid open areas." "gray".
Definition wet : ConditionMatch :=
  Match "Very Wet" "🌧️" "⚠️ Very Wet"
        "Bring rain gear and waterproof shoes." "darkblue".
Definition uncomfortable : ConditionMatch :=
  Match "Very Uncomfortable" "😓" "⚠️ Very Uncomfortable"
        "Stay hydrated and take breaks." "orange".

(** [[c]] when [b] holds. *)
Definition when (b : bool) (c : ConditionMatch) : list ConditionMatch :=
  if b then [c] else [].

(** Two numbers that are equal as Python compares them ([40 == 40.0]). *)
Definition same_number (a b : atom) : Prop :=
  exists x y, atom_exact a = Some x /\ atom_exact b = Some y
              /\ xcompare x y = Some Eq.

(** A field of the request body that is not there or is falsy. *)
Definition absent_or_falsy (d : gmap string pyval) (key : string) : Prop :=
  match d !! key with
  | None => True
  | Some v => truthy v = false
  end.

(** A request that passes both checks of the handler: the three fields are
    truthy and the date parses. *)
Record validated (w : World) (data lat lon date : pyval) (dt : pydate) : Prop := {
  validated_lat : py_get data "lat" = inr lat;
  validated_lon : py_get data "lon" = inr lon;
  validated_date : py_get data "date" = inr date;
  validated_truthy : truthy lat && truthy lon && truthy date = true;
  validated_parse : parse_date w date = inr dt
}.

(** [d1] is strictly earlier than [d2]. *)
Definition date_before (d1 d2 : pydate) : Prop :=
  year d1 < year d2
  \/ (year d1 = year d2
      /\ (month d1 < month d2 \/ (month d1 = month d2 /\ day d1 < day d2))).

(** The endpoint a validated request is sent to. *)
Definition endpoint_for (w : World) (dt : pydate) : string :=
  if date_ltb dt (utcnow_date w) then archive_url else forecast_url.

(** The three ways the provider call fails, with the exception raised. *)
Inductive provider_failure (w : World) (req : Request) : exn -> Prop :=
| transport_error e :
    http_get w req = inl e ->
    provider_failure w req e
| error_status resp e :
    http_get w req = inr resp ->
    400 <= status_code resp < 600 ->
    raise_for_status resp = inl e ->
    provider_failure w req e
| malformed_json resp e :
    http_get w req = inr resp ->
    raise_for_status resp = inr tt ->
    json resp = inl e ->
    provider_failure w req e.

(** A decoded provider body without an ["hourly"] entry. *)
Definition lacks_hourly (v : pyval) : Prop :=
  match v with
  | PDict d => d !! "hourly" = None
  | _ => True
  end.

(** An hourly series that is not there or is the empty list. *)
Definition absent_or_empty (h : gmap string pyval) (key : string) : Prop :=
  h !! key = None \/ h !! key = Some (PList []).

(** The URL of [req] is built and the reverse-geocoding call answers with a
    display name. *)
Inductive geocode_found (w : World) (req : Request) (name : pyval) : Prop :=
| display_name_present resp d :
    eval_fstring (url req) = inr tt ->
    http_get w req = inr resp ->
    ok resp = true ->
    json resp = inr (PDict d) ->
    d !! "display_name" = Some name ->
    geocode_found w req name.

(** Every other way the reverse-geocoding call can end. *)
Inductive geocode_failed (w : World) (req : Request) : Prop :=
| geocode_url_error e :
    eval_fstring (url req) = inl e ->
    geocode_failed w req
| geocode_network_error e :
    http_get w req = inl e ->
    geocode_failed w req
| geocode_error_status resp :
    http_get w req = inr resp ->
    ok resp = false ->
    geocode_failed w req
| geocode_bad_json resp e :
    http_get w req = inr resp ->
    ok resp = true ->
    json resp = inl e ->
    geocode_failed w req
| geocode_not_an_object resp v :
    http_get w req = inr resp ->
    ok resp = true ->
    json resp = inr v ->
    (forall d, v <> PDict d) ->
    geocode_failed w req
| geocode_missing_field resp d :
    http_get w req = inr resp ->
    ok resp = true ->
    json resp = inr (PDict d) ->
    d !! "display_name" = None ->
    geocode_failed w req.

(** Whether the test of a rule holds on [args]: its call returns true. *)
Definition rule_matches (args : list atom) (r : ConditionRule) : bool :=
  match call (rule r) args with
  | inr true => true
  | _ => false
  end.

(** The call of a rule on [args] returns rather than raises. *)
Definition rule_returns (args : list atom) (r : ConditionRule) : Prop :=
  exists b : bool, call (rule r) args = inr b.

(** [x > y] on exact values; false when a NaN is involved. *)
Definition xgt (x y : xnum) : bool :=
  match xcompare x y with
  | Some Gt => true
  | _ => false
  end.

(** The provider answers [req] with a passing status and the JSON [v]. *)
Definition provider_answers (w : World) (req : Request) (v : pyval) : Prop :=
  exists resp, http_get w req = inr resp
               /\ raise_for_status resp = inr tt
               /\ json resp = inr v.

(* ===================================================================== *)
(** ** A mocked world, for concrete runs                                  *)
(* ===================================================================== *)

Definition mock_today : pydate := Date 2024 6 15.

Definition mock_strptime (s : string) : Exc pydate :=
  if String.eqb s "2000-01-01" then mret (Date 2000 1 1)
  else if String.eqb s "2024-06-15" then mret (Date 2024 6 15)
  else if String.eqb s "2099-01-01" then mret (Date 2099 1 1)
  else raise ValueError ("time data '" ++ s
                         ++ "' does not match format '%Y-%m-%d'").

(** Weather requests get [weather_answer], the geocoding request
    [geocode_answer]. *)
Definition mock_world (weather_answer geocode_answer : Exc Response) : World :=
  {| utcnow_date := mock_today;
     strptime := mock_strptime;
     http_get := fun req =>
       match url req with
       | [Lit _] => weather_answer
       | _ => geocode_answer
       end |}.

Definition mock_response (status : Z) (phrase : string) (content : Exc pyval)
    : Response :=
  {| status_code := status;
     reason := phrase;
     final_url := "https://mock.invalid/";
     json := content |}.

Definition mock_body (lat lon : atom) (date : string) : pyval :=
  PDict (<["lat" := PAtom lat]> (<["lon" := PAtom lon]>
          (<["date" := PAtom (AStr date)]> ∅))).

(** A provider that answers 200 with the JSON [v], and one that times out. *)
Definition mock_answer (v : pyval) : Exc Response :=
  inr (mock_response 200 "OK" (inr v)).
Definition mock_down : Exc Response := inl (Exn Timeout "timed out").

(** The provider's JSON with [h] as its hourly object. *)
Definition mock_hourly (h : gmap string pyval) : gmap string pyval :=
  {[ "hourly" := PDict h ]}.

(** 48.5 and 2.25 as binary64 values. *)
Definition f48_5 : spec_float := S754_finite false 97 (-1).
Definition f2_25 : spec_float := S754_finite false 9 (-2).

(* ===================================================================== *)
(** * Properties                                                          *)
(* ===================================================================== *)

(** Exposes the binds of a handler so that the next call can be rewritten. *)
Ltac step_eff := unfold mbind, Eff_bind, lift.

(** ** Comparisons *)

Lemma compare_number_returns op want a n :
  is_number a = true -> exists b, py_compare op want a (AInt n) = inr b.
Proof.
  unfold is_number, py_compare. cbn [atom_exact].
  destruct (atom_exact a); [| discriminate].
  intros _. eexists. reflexivity.
Qed.

Lemma compare_returns_number op want a n b :
  py_compare op want a (AInt n) = inr b -> is_number a = true.
Proof.
  unfold is_number, py_compare. cbn [atom_exact].
  destruct (atom_exact a); [reflexivity |].
  destruct a; discriminate.
Qed.

(** No value is both above 35 and below 5. *)
Lemma above_35_not_below_5 t :
  py_gt t (AInt 35) = inr true -> py_lt t (AInt 5) = inr true -> False.
Proof.
  unfold py_gt, py_lt, py_compare. cbn [atom_exact].
  destruct (atom_exact t) as [x |] eqn:E.
  - unfold mret, Exc_ret. intros H1 H2.
    injection H1 as H1. injection H2 as H2.
    destruct x as [| s | m e]; cbn in H1, H2; try discriminate.
    + destruct s; cbn in *; discriminate.
    + apply bool_decide_eq_true in H1, H2.
      set (k := Z.min e 0) in *.
      assert (0 < 2 ^ (0 - k)) by (apply Z.pow_pos_nonneg; lia).
      rewrite Z.compare_gt_iff in H1. rewrite Z.compare_lt_iff in H2. lia.
  - destruct t; cbn; discriminate.
Qed.

(** ** Calling the five rules with four positional arguments *)

Section FourArguments.

Variables t w p h : atom.

Lemma call_very_hot : call very_hot_rule [t; w; p; h] = py_gt t (AInt 35).
Proof. reflexivity. Qed.

Lemma call_very_cold : call very_cold_rule [t; w; p; h] = py_lt t (AInt 5).
Proof. reflexivity. Qed.

Lemma call_very_windy : call very_windy_rule [t; w; p; h] = py_gt w (AInt 40).
Proof. reflexivity. Qed.

End FourArguments.

(** [p] and [h] follow [*_] in their parameter lists, so they can only be
    passed by keyword: a positional call never binds them. *)
Lemma call_very_wet args :
  call very_wet_rule args
  = inl (Exn TypeError "<lambda>() missing 1 required keyword-only argument: 'p'").
Proof.
  unfold call, bind_arguments.
  cbn [params very_wet_rule positional var_positional keyword_only].
  rewrite drop_nil. reflexivity.
Qed.

Lemma call_very_uncomfortable args :
  call very_uncomfortable_rule args
  = inl (Exn TypeError "<lambda>() missing 1 required keyword-only argument: 'h'").
Proof.
  unfold call, bind_arguments.
  cbn [params very_uncomfortable_rule positional var_positional keyword_only].
  rewrite drop_nil. reflexivity.
Qed.

(** ** The classifier *)

(** The loop unrolled: the first three rules are evaluated, the call of the
    fourth raises. *)
Lemma classify_conditions_unfold t w p h :
  classify_conditions t w p h
  = (_ ← py_gt t (AInt 35);
     _ ← py_lt t (AInt 5);
     _ ← py_gt w (AInt 40);
     call very_wet_rule [t; w; p; h] ≫= fun _ => mret []).
Proof.
  unfold classify_conditions, CONDITION_RULES.
  cbn [classify_loop rule].
  rewrite call_very_hot, call_very_cold, call_very_windy, call_very_wet.
  destruct (py_gt t (AInt 35)) as [| []]; cbn; try reflexivity;
    destruct (py_lt t (AInt 5)) as [| []]; cbn; try reflexivity;
    destruct (py_gt w (AInt 40)) as [| []]; reflexivity.
Qed.

(** The results after the first [k] rules, for [k <= 3]. *)
Lemma classify_loop_first_three t w p h :
  classify_loop (take 3 CONDITION_RULES) [t; w; p; h] []
  = (a ← py_gt t (AInt 35);
     b ← py_lt t (AInt 5);
     c ← py_gt w (AInt 40);
     mret (when a hot ++ when b cold ++ when c windy)%list).
Proof.
  cbn [take CONDITION_RULES classify_loop rule].
  rewrite call_very_hot, call_very_cold, call_very_windy.
  destruct (py_gt t (AInt 35)) as [| []]; cbn; try reflexivity;
    destruct (py_lt t (AInt 5)) as [| []]; cbn; try reflexivity;
    destruct (py_gt w (AInt 40)) as [| []]; reflexivity.
Qed.

(** C1: on every tuple of four numeric daily metrics the classifier is to
    return the matches of the rules whose threshold test holds, with no
    failure mode. The code does not: the rule of "Very Wet" takes [p] as a
    keyword-only parameter, so its call with four positional arguments
    raises [TypeError] and [classify_conditions] raises on every tuple. *)
Theorem classify_conditions_raises (t w p h : number) :
  classify_conditions (number_atom t) (number_atom w)
                      (number_atom p) (number_atom h)
  = inl (Exn TypeError "<lambda>() missing 1 required keyword-only argument: 'p'").
Proof.
  assert (Ht : is_number (number_atom t) = true) by (by destruct t).
  assert (Hw : is_number (number_atom w) = true) by (by destruct w).
  rewrite classify_conditions_unfold, call_very_wet.
  destruct (compare_number_returns ">" Gt _ 35 Ht) as [a Ha].
  destruct (compare_number_returns "<" Lt _ 5 Ht) as [b Hb].
  destruct (compare_number_returns ">" Gt _ 40 Hw) as [c Hc].
  unfold py_gt, py_lt. rewrite Ha, Hb, Hc. reflexivity.
Qed.

Lemma compare_raises_type_error op want a b e :
  py_compare op want a b = inl e -> exn_cls e = TypeError.
Proof.
  unfold py_compare.
  destruct (atom_exact a), (atom_exact b); try discriminate;
    destruct a, b; try discriminate; intros [= <-]; reflexivity.
Qed.

(** Whatever the four arguments are, the classifier raises [TypeError]. *)
Lemma classify_conditions_never_returns (t w p h : atom) :
  exists e, classify_conditions t w p h = inl e /\ exn_cls e = TypeError.
Proof.
  rewrite classify_conditions_unfold, call_very_wet. unfold py_gt, py_lt.
  destruct (py_compare ">" Gt t (AInt 35)) as [e | a] eqn:Ha;
    [exists e; split; [reflexivity | eauto using compare_raises_type_error] |].
  destruct (py_compare "<" Lt t (AInt 5)) as [e | b] eqn:Hb;
    [exists e; split; [reflexivity | eauto using compare_raises_type_error] |].
  destruct (py_compare ">" Gt w (AInt 40)) as [e | c] eqn:Hc;
    [exists e; split; [reflexivity | eauto using compare_raises_type_error] |].
  eexists. split; reflexivity.
Qed.

(** Only rows of the table are ever appended to [results]. *)
Lemma classify_loop_rendered rules args results out :
  classify_loop rules args results = inr out ->
  forall c, c ∈ out -> c ∈ results \/ exists r, r ∈ rules /\ c = render r.
Proof.
  revert results. induction rules as [| r rules IH]; intros results H c Hc.
  - injection H as <-. by left.
  - cbn [classify_loop] in H.
    destruct (call (rule r) args) as [e | matched]; [discriminate |].
    cbn in H. destruct (IH _ H c Hc) as [Hin | (r' & Hr' & ->)].
    + destruct matched; [| by left].
      apply elem_of_app in Hin as [Hin | Hin]; [by left |].
      apply list_elem_of_singleton in Hin as ->.
      right. exists r. split; [left | reflexivity].
    + right. exists r'. split; [by right | reflexivity].
Qed.

Lemma has_label_nil l : ~ has_label l [].
Proof. intros (c & Hc & _). by apply elem_of_nil in Hc. Qed.

Lemma has_label_cons l c cs :
  has_label l (c :: cs) <-> label c = l \/ has_label l cs.
Proof.
  unfold has_label. split.
  - intros (c' & Hin & Hl). apply elem_of_cons in Hin as [-> | Hin]; eauto.
  - intros [Hl | (c' & Hin & Hl)].
    + exists c. split; [left | done].
    + exists c'. split; [by right | done].
Qed.

Lemma has_label_app l cs1 cs2 :
  has_label l (cs1 ++ cs2) <-> has_label l cs1 \/ has_label l cs2.
Proof.
  unfold has_label. split.
  - intros (c & Hin & Hl). apply elem_of_app in Hin as [Hin | Hin]; eauto.
  - intros [(c & Hin & Hl) | (c & Hin & Hl)]; exists c;
      (split; [apply elem_of_app; eauto | done]).
Qed.

Lemma has_label_when l b c :
  has_label l (when b c) <-> b = true /\ label c = l.
Proof.
  destruct b; cbn [when].
  - rewrite has_label_cons. split; [intros [H | H] | intros [_ H]]; eauto.
    by apply has_label_nil in H.
  - split; [intros H; by apply has_label_nil in H | intros [H _]; discriminate].
Qed.

(** What the loop holds after the first [k] rules, when it gets that far:
    the matches of the rules among the first three whose test holds, in
    rule order. It never gets past the fourth. *)
Lemma classify_loop_prefix (t w p h : atom) (k : nat) (cs : list ConditionMatch) :
  classify_loop (take k CONDITION_RULES) [t; w; p; h] [] = inr cs ->
  exists a b c : bool,
    cs = (when a hot ++ when b cold ++ when c windy)%list
    /\ (a = true -> py_gt t (AInt 35) = inr true)
    /\ (b = true -> py_lt t (AInt 5) = inr true)
    /\ (c = true -> py_gt w (AInt 40) = inr true).
Proof.
  destruct k as [| [| [| [| k]]]];
    cbn [take CONDITION_RULES classify_loop rule];
    rewrite ?call_very_hot, ?call_very_cold, ?call_very_windy, ?call_very_wet.
  - intros [= <-]. exists false, false, false. by repeat split.
  - destruct (py_gt t (AInt 35)) as [| a]; [discriminate |].
    intros [= <-]. exists a, false, false.
    repeat split; try discriminate; by destruct a.
  - destruct (py_gt t (AInt 35)) as [| a]; [discriminate |].
    destruct (py_lt t (AInt 5)) as [| b]; [discriminate |].
    intros [= <-]. exists a, b, false.
    repeat split; try discriminate; by destruct a, b.
  - destruct (py_gt t (AInt 35)) as [| a]; [discriminate |].
    destruct (py_lt t (AInt 5)) as [| b]; [discriminate |].
    destruct (py_gt w (AInt 40)) as [| c]; [discriminate |].
    intros [= <-]. exists a, b, c.
    repeat split; by destruct a, b, c.
  - destruct (py_gt t (AInt 35)) as [| a]; [discriminate |].
    destruct (py_lt t (AInt 5)) as [| b]; [discriminate |].
    destruct (py_gt w (AInt 40)) as [| c]; discriminate.
Qed.

(** C8: whatever the loop of the classifier has accumulated after any
    number of rules, and so whatever the classifier returns, never holds a
    "Very Hot" and a "Very Cold" match together: the mean temperature
    cannot be both above 35 and below 5. *)
Theorem hot_and_cold_never_together (t w p h : atom) (k : nat)
    (cs : list ConditionMatch) :
  classify_loop (take k CONDITION_RULES) [t; w; p; h] [] = inr cs ->
  ~ (has_label "Very Hot" cs /\ has_label "Very Cold" cs).
Proof.
  intros Hrun [Hhot Hcold].
  destruct (classify_loop_prefix t w p h k cs Hrun) as (a & b & c & -> & Ha & Hb & _).
  rewrite !has_label_app, !has_label_when in Hhot, Hcold.
  destruct Hhot as [[Hhot _] | [[_ ?] | [_ ?]]]; [| discriminate ..].
  destruct Hcold as [[_ ?] | [[Hcold _] | [_ ?]]]; [discriminate | | discriminate].
  exact (above_35_not_below_5 t (Ha Hhot) (Hb Hcold)).
Qed.

Lemma hot_and_cold_never_together_witness :
  ~ (has_label "Very Hot" [hot; windy] /\ has_label "Very Cold" [hot; windy]).
Proof.
  apply (hot_and_cold_never_together (AInt 40) (AInt 50) (AInt 0) (AInt 0) 3).
  reflexivity.
Defined.

(** ** The summary *)

Lemma existsb_label l cs :
  existsb (fun c => String.eqb (label c) l) cs = true <-> has_label l cs.
Proof.
  rewrite existsb_exists. unfold has_label.
  split; intros (c & Hin & Hl); exists c.
  - split; [by apply list_elem_of_In | by apply String.eqb_eq].
  - split; [by apply list_elem_of_In | by apply String.eqb_eq].
Qed.

Lemma existsb_label_in cs :
  existsb (label_in ["Very Hot"; "Very Wet"; "Very Uncomfortable"]) cs = true
  <-> has_label "Very Hot" cs \/ has_label "Very Wet" cs
      \/ has_label "Very Uncomfortable" cs.
Proof.
  rewrite existsb_exists. unfold has_label, label_in. cbn [existsb].
  split.
  - intros (c & Hin & Hl). apply list_elem_of_In in Hin.
    rewrite !orb_true_iff, !String.eqb_eq in Hl.
    destruct Hl as [Hl | [Hl | [Hl | Hl]]]; [| | | discriminate]; eauto 6.
  - intros [(c & Hin & Hl) | [(c & Hin & Hl) | (c & Hin & Hl)]];
      exists c; (split; [by apply list_elem_of_In |]);
      rewrite Hl; reflexivity.
Qed.

Lemma not_true_false (b : bool) (P : Prop) : (b = true <-> P) -> ~ P -> b = false.
Proof. destruct b; [intros [H _] HP; destruct HP; by apply H | done]. Qed.

Lemma label_cases (cs : list ConditionMatch) :
  let indoors := has_label "Very Hot" cs \/ has_label "Very Wet" cs
                 \/ has_label "Very Uncomfortable" cs in
  indoors \/ (~ indoors /\ (has_label "Very Windy" cs \/ ~ has_label "Very Windy" cs)).
Proof.
  intros indoors.
  destruct (existsb (label_in ["Very Hot"; "Very Wet"; "Very Uncomfortable"]) cs)
    eqn:Hi.
  - left. by apply existsb_label_in.
  - right. split.
    + intros H. apply existsb_label_in in H. congruence.
    + destruct (existsb (fun c => String.eqb (label c) "Very Windy") cs) eqn:Hw.
      * left. by apply existsb_label.
      * right. intros H. apply existsb_label in H. congruence.
Qed.

(** C6: [get_summary] picks its sentence by priority, not by rule order:
    no condition gives the "Great day" sentence; else any of Very Hot, Very
    Wet, Very Uncomfortable gives the indoors sentence; else Very Windy the
    windy sentence; else Very Cold the dress-warmly sentence; else the
    default, which no sequence made of rendered rows of the rule table can
    reach, and so nothing the classifier loop can produce. *)
Theorem get_summary_priority (cs : list ConditionMatch) :
  let indoors := has_label "Very Hot" cs \/ has_label "Very Wet" cs
                 \/ has_label "Very Uncomfortable" cs in
  (cs = [] -> get_summary cs = "Great day for outdoor activities!")
  /\ (indoors -> get_summary cs
        = "This day looks uncomfortable for hiking. Best to plan indoors.")
  /\ (~ indoors -> has_label "Very Windy" cs -> get_summary cs
        = "Windy conditions. Caution advised for outdoor events.")
  /\ (~ indoors -> ~ has_label "Very Windy" cs -> has_label "Very Cold" cs ->
      get_summary cs = "Dress warmly for outdoor activities.")
  /\ (cs <> [] -> ~ indoors -> ~ has_label "Very Windy" cs ->
      ~ has_label "Very Cold" cs ->
      get_summary cs = "Check conditions before heading out.")
  /\ (rendered_from_rules cs ->
      get_summary cs <> "Check conditions before heading out.")
  /\ (forall (k : nat) (args : list atom),
        classify_loop (take k CONDITION_RULES) args [] = inr cs ->
        get_summary cs <> "Check conditions before heading out.").
Proof.
  intros indoors.
  assert (Hnonempty : forall l, has_label l cs -> exists c cs', cs = c :: cs').
  { intros l (c & Hin & _). destruct cs; [by apply elem_of_nil in Hin | eauto]. }
  assert (H2 : indoors -> get_summary cs
              = "This day looks uncomfortable for hiking. Best to plan indoors.").
  { intros Hi. assert (exists c cs', cs = c :: cs') as (c & cs' & E).
    { destruct Hi as [H | [H | H]]; eauto. }
    apply existsb_label_in in Hi. unfold get_summary.
    rewrite E in *. by rewrite Hi. }
  assert (H3 : ~ indoors -> has_label "Very Windy" cs -> get_summary cs
              = "Windy conditions. Caution advised for outdoor events.").
  { intros Hi Hw. destruct (Hnonempty _ Hw) as (c & cs' & E).
    apply (not_true_false _ _ (existsb_label_in cs)) in Hi.
    apply existsb_label in Hw. unfold get_summary.
    rewrite E in *. by rewrite Hi, Hw. }
  assert (H4 : ~ indoors -> ~ has_label "Very Windy" cs ->
               has_label "Very Cold" cs ->
               get_summary cs = "Dress warmly for outdoor activities.").
  { intros Hi Hw Hc. destruct (Hnonempty _ Hc) as (c & cs' & E).
    apply (not_true_false _ _ (existsb_label_in cs)) in Hi.
    apply (not_true_false _ _ (existsb_label "Very Windy" cs)) in Hw.
    apply existsb_label in Hc. unfold get_summary.
    rewrite E in *. by rewrite Hi, Hw, Hc. }
  assert (H6 : rendered_from_rules cs ->
               get_summary cs <> "Check conditions before heading out.");
    [| repeat split; try assumption].
  - intros Hr Hdefault. destruct cs as [| c cs']; [discriminate |].
    destruct (Hr c) as (r & Hin & Hc); [left |].
    assert (Hl : has_label (rule_label r) (c :: cs')).
    { exists c. split; [left | by rewrite Hc]. }
    destruct (label_cases (c :: cs')) as [Hi | [Hi [Hw | Hw]]].
    + rewrite (H2 Hi) in Hdefault. discriminate.
    + rewrite (H3 Hi Hw) in Hdefault. discriminate.
    + unfold CONDITION_RULES in Hin.
      repeat (apply elem_of_cons in Hin as [-> | Hin]);
        try (by apply elem_of_nil in Hin); cbn [rule_label] in Hl.
      * destruct Hi; eauto.
      * rewrite (H4 Hi Hw Hl) in Hdefault. discriminate.
      * done.
      * destruct Hi; eauto.
      * destruct Hi; eauto.
  - by intros ->.
  - intros Hne Hi Hw Hc.
    apply (not_true_false _ _ (existsb_label_in cs)) in Hi.
    apply (not_true_false _ _ (existsb_label "Very Windy" cs)) in Hw.
    apply (not_true_false _ _ (existsb_label "Very Cold" cs)) in Hc.
    unfold get_summary. destruct cs as [| c cs']; [done |].
    by rewrite Hi, Hw, Hc.
  - intros k args Hrun. apply H6. intros c Hc.
    destruct (classify_loop_rendered _ _ _ _ Hrun c Hc) as [Hnil | (r & Hr & ->)].
    + by apply elem_of_nil in Hnil.
    + exists r. split; [| reflexivity].
      apply list_elem_of_lookup in Hr as [i Hi].
      apply lookup_take_Some in Hi as [Hi _].
      by eapply list_elem_of_lookup_2.
Qed.

Lemma get_summary_priority_witness :
  get_summary [cold; windy] = "Windy conditions. Caution advised for outdoor events.".
Proof.
  pose proof (get_summary_priority [cold; windy]) as (_ & _ & H & _).
  cbv zeta in H. apply H.
  - intros [Hl | [Hl | Hl]];
      repeat (apply has_label_cons in Hl as [Hl | Hl]; [discriminate |]);
      by apply has_label_nil in Hl.
  - apply has_label_cons. right. apply has_label_cons. by left.
Defined.

(** ** Equal inputs *)

Lemma compare_scale (a b p : Z) : 0 < p -> (a * p ?= b * p) = (a ?= b).
Proof.
  intros Hp. destruct (Z.compare_spec a b) as [-> | Hlt | Hgt].
  - apply Z.compare_refl.
  - apply Z.compare_lt_iff. nia.
  - apply Z.compare_gt_iff. nia.
Qed.

(** Finite values may be compared at any common exponent below both. *)
Lemma xcompare_fin_at (k m1 e1 m2 e2 : Z) :
  k <= e1 -> k <= e2 ->
  xcompare (XFin m1 e1) (XFin m2 e2)
  = Some (m1 * 2 ^ (e1 - k) ?= m2 * 2 ^ (e2 - k)).
Proof.
  intros H1 H2. cbn [xcompare]. f_equal.
  set (e := Z.min e1 e2).
  replace (e1 - k) with ((e1 - e) + (e - k)) by lia.
  replace (e2 - k) with ((e2 - e) + (e - k)) by lia.
  rewrite !Z.pow_add_r by lia. rewrite !Z.mul_assoc.
  symmetry. apply compare_scale. apply Z.pow_pos_nonneg; lia.
Qed.

(** Numbers that are equal compare alike against any int. *)
Lemma same_number_compare op want a b n :
  same_number a b ->
  py_compare op want a (AInt n) = py_compare op want b (AInt n).
Proof.
  intros (x & y & Hx & Hy & Heq). unfold py_compare.
  cbn [atom_exact]. rewrite Hx, Hy. do 2 f_equal.
  destruct x as [| s1 | m1 e1], y as [| s2 | m2 e2]; try discriminate.
  - destruct s1, s2; try discriminate; reflexivity.
  - destruct s1; discriminate.
  - destruct s2; discriminate.
  - set (k := Z.min (Z.min e1 e2) 0).
    rewrite (xcompare_fin_at k) in Heq by lia.
    rewrite (xcompare_fin_at k m1 e1 n 0), (xcompare_fin_at k m2 e2 n 0) by lia.
    injection Heq as Heq. apply Z.compare_eq in Heq. by rewrite Heq.
Qed.

(** C9: [classify_conditions] and [get_summary] are functions of their
    arguments alone. Equal daily metrics give equal classifier outcomes,
    equal condition sequences give equal summaries; and the classifier
    outcome, as well as what its loop holds after any number of rules, is
    the same for metrics that are equal as numbers, such as 40 and 40.0. *)
Theorem classifier_and_summary_deterministic :
  (forall m1 m2 : DailyMetrics, m1 = m2 ->
     classify_conditions (temp m1) (wind m1) (precip m1) (humidity m1)
     = classify_conditions (temp m2) (wind m2) (precip m2) (humidity m2))
  /\ (forall cs1 cs2 : list ConditionMatch, cs1 = cs2 ->
        get_summary cs1 = get_summary cs2)
  /\ (forall m1 m2 : DailyMetrics,
        same_number (temp m1) (temp m2) -> same_number (wind m1) (wind m2) ->
        same_number (precip m1) (precip m2) ->
        same_number (humidity m1) (humidity m2) ->
        forall k,
          classify_loop (take k CONDITION_RULES)
                        [temp m1; wind m1; precip m1; humidity m1] []
          = classify_loop (take k CONDITION_RULES)
                          [temp m2; wind m2; precip m2; humidity m2] []).
Proof.
  split; [by intros m1 m2 -> |]. split; [by intros cs1 cs2 -> |].
  intros [t1 w1 p1 h1] [t2 w2 p2 h2]. cbn [temp wind precip humidity].
  intros Ht Hw _ _ k.
  assert (Hhot : py_gt t1 (AInt 35) = py_gt t2 (AInt 35))
    by (by apply same_number_compare).
  assert (Hcold : py_lt t1 (AInt 5) = py_lt t2 (AInt 5))
    by (by apply same_number_compare).
  assert (Hwindy : py_gt w1 (AInt 40) = py_gt w2 (AInt 40))
    by (by apply same_number_compare).
  destruct k as [| [| [| [| k]]]];
    cbn [take CONDITION_RULES classify_loop rule];
    rewrite ?call_very_hot, ?call_very_cold, ?call_very_windy, ?call_very_wet;
    rewrite ?Hhot, ?Hcold, ?Hwindy; reflexivity.
Qed.

Lemma classifier_and_summary_deterministic_witness :
  classify_loop (take 3 CONDITION_RULES)
                [AInt 40; AInt 50; AInt 0; AInt 90] []
  = classify_loop (take 3 CONDITION_RULES)
                  [AFloat (S754_finite false 5 3); AFloat (S754_finite false 25 1);
                   AFloat (S754_zero true); AFloat (S754_finite false 45 1)] [].
Proof.
  pose proof classifier_and_summary_deterministic as (_ & _ & H).
  apply (H (Metrics (AInt 40) (AInt 50) (AInt 0) (AInt 90))
           (Metrics (AFloat (S754_finite false 5 3)) (AFloat (S754_finite false 25 1))
                    (AFloat (S754_zero true)) (AFloat (S754_finite false 45 1))));
    (do 2 eexists; repeat split; reflexivity).
Defined.

(** ** The handler *)

(** What the body of the second [try] yields and logs. *)
Lemma fetch_metrics_run w base_url lat lon date log :
  fetch_metrics w base_url lat lon date log
  = (resp ← http_get w (weather_request base_url lat lon date);
     _ ← raise_for_status resp;
     weather_json ← json resp;
     daily_metrics weather_json,
     (log ++ [weather_request base_url lat lon date])%list).
Proof.
  unfold fetch_metrics, mbind at 1 2 3, Eff_bind, pyrequests_get, lift.
  destruct (http_get w _) as [e | resp]; [reflexivity |]. cbn [mbind Exc_bind].
  destruct (raise_for_status resp) as [e | []]; [reflexivity |].
  destruct (json resp) as [e | v]; reflexivity.
Qed.

Section ValidatedRequest.

Context (w : World) (data lat lon date : pyval) (dt : pydate).
Hypothesis Hvalid : validated w data lat lon date dt.

(** Past the two checks, the handler is at its second [try]. *)
Lemma weather_validated log :
  weather w data log
  = match fetch_metrics w (endpoint_for w dt) lat lon date log with
    | (inl e, log') => (inr (unavailable_reply e), log')
    | (inr m, log') =>
        (conditions ← lift (classify_conditions (temp m) (wind m)
                                                (precip m) (humidity m));
         location_name ← get_location_name w lat lon;
         mret {| reply_body := WeatherBody location_name date
                                           (get_summary conditions) conditions;
                 reply_status := 200 |}) log'
    end.
Proof.
  destruct Hvalid as [Hlat Hlon Hdate Htruthy Hparse].
  unfold weather, mbind, Eff_bind, lift at 1 2 3.
  rewrite Hlat, Hlon, Hdate, Htruthy. cbn [negb]. rewrite Hparse.
  unfold attempt, endpoint_for.
  destruct (fetch_metrics _ _ _ _ _ log) as [[e | m] log']; reflexivity.
Qed.

(** When the fetch fails the reply is the 502, and nothing else is called. *)
Lemma weather_fetch_failed log e :
  fst (fetch_metrics w (endpoint_for w dt) lat lon date log) = inl e ->
  weather w data log
  = (inr (unavailable_reply e),
     (log ++ [weather_request (endpoint_for w dt) lat lon date])%list).
Proof.
  intros Hfetch. rewrite weather_validated.
  rewrite fetch_metrics_run in *. cbn [fst] in Hfetch. by rewrite Hfetch.
Qed.

(** When the fetch succeeds the classifier is called next, and raises. *)
Lemma weather_fetch_succeeded log m :
  fst (fetch_metrics w (endpoint_for w dt) lat lon date log) = inr m ->
  exists e,
    classify_conditions (temp m) (wind m) (precip m) (humidity m) = inl e
    /\ weather w data log
       = (inl e, (log ++ [weather_request (endpoint_for w dt) lat lon date])%list).
Proof.
  intros Hfetch. rewrite weather_validated.
  rewrite fetch_metrics_run in *. cbn [fst] in Hfetch. rewrite Hfetch.
  destruct (classify_conditions_never_returns (temp m) (wind m) (precip m)
              (humidity m)) as (e & He & _).
  exists e. split; [done |].
  step_eff. by rewrite He.
Qed.

(** Either way the weather request is the one outbound call made. *)
Lemma weather_log log :
  snd (weather w data log)
  = (log ++ [weather_request (endpoint_for w dt) lat lon date])%list.
Proof.
  destruct (fst (fetch_metrics w (endpoint_for w dt) lat lon date log))
    as [e | m] eqn:Hf.
  - by rewrite (weather_fetch_failed log e Hf).
  - destruct (weather_fetch_succeeded log m Hf) as (e & _ & Hw). by rewrite Hw.
Qed.

End ValidatedRequest.

Lemma absent_or_falsy_get (d : gmap string pyval) key :
  absent_or_falsy d key <-> truthy (default (PAtom ANone) (d !! key)) = false.
Proof. unfold absent_or_falsy. destruct (d !! key); cbn; split; auto. Qed.

Lemma py_get_dict (d : gmap string pyval) key :
  py_get (PDict d) key = inr (default (PAtom ANone) (d !! key)).
Proof. reflexivity. Qed.

(** The first check of [weather] on a JSON object. *)
Lemma weather_first_check w (d : gmap string pyval) log :
  let lat := default (PAtom ANone) (d !! "lat") in
  let lon := default (PAtom ANone) (d !! "lon") in
  let date := default (PAtom ANone) (d !! "date") in
  (truthy lat && truthy lon && truthy date = false ->
   weather w (PDict d) log = (inr missing_reply, log))
  /\ (truthy lat && truthy lon && truthy date = true ->
      forall e, parse_date w date = inl e ->
      weather w (PDict d) log = (inr invalid_date_reply, log))
  /\ (truthy lat && truthy lon && truthy date = true ->
      forall dt, parse_date w date = inr dt ->
      validated w (PDict d) lat lon date dt).
Proof.
  intros lat lon date. repeat split; try apply py_get_dict; try assumption.
  - intros H. unfold weather, mbind, Eff_bind, lift at 1 2 3.
    rewrite !py_get_dict. fold lat lon date. by rewrite H.
  - intros H e He. unfold weather, mbind, Eff_bind, lift at 1 2 3.
    rewrite !py_get_dict. fold lat lon date. by rewrite H, He.
Qed.

(** C3: a request body in which lat, lon or date is absent or falsy (the
    coordinate 0 included) is answered with status 400 and the body
    [{"error": "Missing lat, lon, or date"}], before any outbound call; and
    a request answered so is a JSON object with one of the three fields
    absent or falsy. *)
Theorem missing_fields_rejected (w : World) :
  (forall d : gmap string pyval,
     absent_or_falsy d "lat" \/ absent_or_falsy d "lon" \/ absent_or_falsy d "date" ->
     run (weather w (PDict d))
     = (inr {| reply_body := ErrorBody "Missing lat, lon, or date";
               reply_status := 400 |}, []))
  /\ (forall data : pyval,
        fst (run (weather w data))
        = inr {| reply_body := ErrorBody "Missing lat, lon, or date";
                 reply_status := 400 |} ->
        exists d : gmap string pyval,
          data = PDict d
          /\ (absent_or_falsy d "lat" \/ absent_or_falsy d "lon"
              \/ absent_or_falsy d "date")).
Proof.
  split.
  - intros d H. apply (weather_first_check w d []).
    rewrite !absent_or_falsy_get in H.
    destruct H as [H | [H | H]]; rewrite H;
      rewrite ?andb_false_r; reflexivity.
  - intros data H. destruct data as [a | items | d]; try discriminate.
    exists d. split; [reflexivity |].
    rewrite !absent_or_falsy_get.
    destruct (weather_first_check w d []) as (_ & Hbad & Hgood).
    destruct (truthy (default (PAtom ANone) (d !! "lat"))); [| by left].
    destruct (truthy (default (PAtom ANone) (d !! "lon"))); [| by right; left].
    destruct (truthy (default (PAtom ANone) (d !! "date"))); [| by right; right].
    exfalso. unfold run in H.
    destruct (parse_date w (default (PAtom ANone) (d !! "date"))) as [e | dt] eqn:Hp.
    + rewrite (Hbad eq_refl e eq_refl) in H. discriminate.
    + specialize (Hgood eq_refl dt eq_refl).
      destruct (fst (fetch_metrics w (endpoint_for w dt)
                       (default (PAtom ANone) (d !! "lat"))
                       (default (PAtom ANone) (d !! "lon"))
                       (default (PAtom ANone) (d !! "date")) [])) as [e | m] eqn:Hf.
      * rewrite (weather_fetch_failed _ _ _ _ _ _ Hgood _ _ Hf) in H. discriminate.
      * destruct (weather_fetch_succeeded _ _ _ _ _ _ Hgood _ _ Hf) as (e & _ & Hw).
        rewrite Hw in H. discriminate.
Qed.

Lemma missing_fields_rejected_witness :
  run (weather (mock_world (inl (Exn Timeout "timed out")) (inl (Exn Timeout "timed out")))
               (mock_body (AInt 0) (AFloat f2_25) "2024-06-15"))
  = (inr missing_reply, []).
Proof.
  apply missing_fields_rejected. left. reflexivity.
Defined.

Lemma provider_failure_fetch w base_url lat lon date log e :
  provider_failure w (weather_request base_url lat lon date) e ->
  fst (fetch_metrics w base_url lat lon date log) = inl e.
Proof.
  rewrite fetch_metrics_run. cbn [fst].
  intros [e' H | resp e' H _ Hs | resp e' H Hs Hj]; rewrite H; cbn [mbind Exc_bind].
  - reflexivity.
  - by rewrite Hs.
  - by rewrite Hs, Hj.
Qed.

(** A status in the 4xx or 5xx range makes [raise_for_status] raise. *)
Lemma error_status_raises resp :
  400 <= status_code resp < 600 ->
  exists e, raise_for_status resp = inl e /\ exn_cls e = HTTPError.
Proof.
  intros H. unfold raise_for_status.
  destruct (Z.ltb_spec (status_code resp) 500).
  - replace (400 <=? status_code resp) with true by (symmetry; apply Z.leb_le; lia).
    eexists. split; reflexivity.
  - replace (400 <=? status_code resp) with true by (symmetry; apply Z.leb_le; lia).
    replace (500 <=? status_code resp) with true by (symmetry; apply Z.leb_le; lia).
    replace (status_code resp <? 600) with true by (symmetry; apply Z.ltb_lt; lia).
    eexists. split; reflexivity.
Qed.

(** C4: for a validated request, when the provider call fails (transport
    error, 4xx or 5xx status, body that is not JSON) the reply has status
    502 and the error "Weather data unavailable: " followed by the text of
    the exception; the weather request is the only outbound call and no 200
    reply is made. *)
Theorem provider_failure_gives_502 (w : World) (data lat lon date : pyval)
    (dt : pydate) (e : exn) :
  validated w data lat lon date dt ->
  provider_failure w (weather_request (endpoint_for w dt) lat lon date) e ->
  run (weather w data)
  = (inr {| reply_body := ErrorBody ("Weather data unavailable: " ++ exn_str e);
            reply_status := 502 |},
     [weather_request (endpoint_for w dt) lat lon date]).
Proof.
  intros Hv Hf. unfold run.
  apply (weather_fetch_failed w data lat lon date dt Hv [] e).
  by apply provider_failure_fetch.
Qed.

Lemma provider_failure_gives_502_witness :
  run (weather (mock_world (inr (mock_response 500 "Internal Server Error" (inr (PDict ∅))))
                           (inl (Exn Timeout "timed out")))
               (mock_body (AFloat f48_5) (AFloat f2_25) "2000-01-01"))
  = (inr {| reply_body := ErrorBody
              "Weather data unavailable: 500 Server Error: Internal Server Error for url: https://mock.invalid/";
            reply_status := 502 |},
     [weather_request archive_url (AFloat f48_5) (AFloat f2_25) (AStr "2000-01-01")]).
Proof.
  apply (provider_failure_gives_502
           (mock_world (inr (mock_response 500 "Internal Server Error" (inr (PDict ∅))))
                       (inl (Exn Timeout "timed out")))
           (mock_body (AFloat f48_5) (AFloat f2_25) "2000-01-01")
           (AFloat f48_5) (AFloat f2_25) (AStr "2000-01-01") (Date 2000 1 1)
           (Exn HTTPError
              "500 Server Error: Internal Server Error for url: https://mock.invalid/")).
  - split; reflexivity.
  - eapply error_status; [reflexivity | cbn; lia | reflexivity].
Defined.

Lemma date_ltb_before d1 d2 : date_ltb d1 d2 = true <-> date_before d1 d2.
Proof.
  unfold date_ltb, date_before.
  rewrite !orb_true_iff, !andb_true_iff, !orb_true_iff, !andb_true_iff.
  rewrite !Z.ltb_lt, !Z.eqb_eq. reflexivity.
Qed.

Lemma date_before_irreflexive d : ~ date_before d d.
Proof. unfold date_before. lia. Qed.

(** C7: a validated request makes its weather call first, to the archive
    endpoint when the requested date is strictly before the current UTC
    date and to the forecast endpoint otherwise; today's date is not
    past. *)
Theorem endpoint_by_date (w : World) (data lat lon date : pyval) (dt : pydate) :
  validated w data lat lon date dt ->
  exists (base_url : string) (rest : list Request),
    snd (run (weather w data)) = weather_request base_url lat lon date :: rest
    /\ (date_before dt (utcnow_date w) ->
        base_url = "https://archive-api.open-meteo.com/v1/archive")
    /\ (~ date_before dt (utcnow_date w) ->
        base_url = "https://api.open-meteo.com/v1/forecast")
    /\ (dt = utcnow_date w ->
        base_url = "https://api.open-meteo.com/v1/forecast").
Proof.
  intros Hv. exists (endpoint_for w dt), [].
  assert (Hfuture : ~ date_before dt (utcnow_date w) ->
                    endpoint_for w dt = forecast_url).
  { intros Hn. unfold endpoint_for.
    destruct (date_ltb dt (utcnow_date w)) eqn:Hlt; [| reflexivity].
    apply date_ltb_before in Hlt. contradiction. }
  repeat split.
  - unfold run. by rewrite (weather_log w data lat lon date dt Hv []).
  - intros Hb. apply date_ltb_before in Hb. unfold endpoint_for. by rewrite Hb.
  - exact Hfuture.
  - intros ->. apply Hfuture, date_before_irreflexive.
Qed.

Lemma endpoint_by_date_witness :
  exists (base_url : string) (rest : list Request),
    snd (run (weather (mock_world (inl (Exn Timeout "timed out"))
                                  (inl (Exn Timeout "timed out")))
                      (mock_body (AFloat f48_5) (AFloat f2_25) "2024-06-15")))
    = weather_request base_url (AFloat f48_5) (AFloat f2_25) (AStr "2024-06-15") :: rest
    /\ (date_before mock_today mock_today ->
        base_url = "https://archive-api.open-meteo.com/v1/archive")
    /\ (~ date_before mock_today mock_today ->
        base_url = "https://api.open-meteo.com/v1/forecast")
    /\ (mock_today = mock_today ->
        base_url = "https://api.open-meteo.com/v1/forecast").
Proof.
  apply (endpoint_by_date
           (mock_world (inl (Exn Timeout "timed out")) (inl (Exn Timeout "timed out")))
           (mock_body (AFloat f48_5) (AFloat f2_25) "2024-06-15")
           (AFloat f48_5) (AFloat f2_25) (AStr "2024-06-15") mock_today).
  split; reflexivity.
Defined.

Lemma getitem_lacking_hourly v :
  lacks_hourly v ->
  exists e, py_getitem v "hourly" = inl e
            /\ (forall d, v = PDict d -> exn_str e = "'hourly'").
Proof.
  destruct v as [[] | items | d]; cbn [lacks_hourly py_getitem];
    try (intros _; eexists; split; [reflexivity | discriminate]).
  intros ->. eexists. split; [reflexivity | reflexivity].
Qed.

(** C10: for a validated request, when the provider answers with a
    successful status and JSON that has no top-level "hourly" entry, the
    reply has status 502 and the error "Weather data unavailable: " with
    the text of the lookup error (['hourly'] for a JSON object); the
    missing entry is not read as four zero metrics and no 200 reply is
    made. *)
Theorem missing_hourly_gives_502 (w : World) (data lat lon date : pyval)
    (dt : pydate) (resp : Response) (v : pyval) :
  validated w data lat lon date dt ->
  http_get w (weather_request (endpoint_for w dt) lat lon date) = inr resp ->
  raise_for_status resp = inr tt ->
  json resp = inr v ->
  lacks_hourly v ->
  exists detail : string,
    run (weather w data)
    = (inr {| reply_body := ErrorBody ("Weather data unavailable: " ++ detail);
              reply_status := 502 |},
       [weather_request (endpoint_for w dt) lat lon date])
    /\ (forall d, v = PDict d -> detail = "'hourly'").
Proof.
  intros Hv Hget Hstatus Hjson Hlacks.
  destruct (getitem_lacking_hourly v Hlacks) as (e & He & Hstr).
  exists (exn_str e). split; [| exact Hstr].
  unfold run. apply (weather_fetch_failed w data lat lon date dt Hv [] e).
  rewrite fetch_metrics_run. cbn [fst]. rewrite Hget. cbn [mbind Exc_bind].
  rewrite Hstatus, Hjson. cbn [mbind Exc_bind]. unfold daily_metrics.
  by rewrite He.
Qed.

Lemma missing_hourly_gives_502_witness :
  exists detail : string,
    run (weather (mock_world (inr (mock_response 200 "OK"
                                     (inr (PDict {[ "latitude" := PAtom (AFloat f48_5) ]}))))
                             (inl (Exn Timeout "timed out")))
                 (mock_body (AFloat f48_5) (AFloat f2_25) "2099-01-01"))
    = (inr {| reply_body := ErrorBody ("Weather data unavailable: " ++ detail);
              reply_status := 502 |},
       [weather_request forecast_url (AFloat f48_5) (AFloat f2_25) (AStr "2099-01-01")])
    /\ (forall d, PDict {[ "latitude" := PAtom (AFloat f48_5) ]} = PDict d ->
        detail = "'hourly'").
Proof.
  apply (missing_hourly_gives_502
           (mock_world (inr (mock_response 200 "OK"
                               (inr (PDict {[ "latitude" := PAtom (AFloat f48_5) ]}))))
                       (inl (Exn Timeout "timed out")))
           (mock_body (AFloat f48_5) (AFloat f2_25) "2099-01-01")
           (AFloat f48_5) (AFloat f2_25) (AStr "2099-01-01") (Date 2099 1 1)
           (mock_response 200 "OK" (inr (PDict {[ "latitude" := PAtom (AFloat f48_5) ]})))).
  - split; reflexivity.
  - reflexivity.
  - reflexivity.
  - reflexivity.
  - reflexivity.
Defined.

(** ** Empty hourly series *)

Lemma mean_or_zero_empty (h : gmap string pyval) key :
  absent_or_empty h key -> mean_or_zero (PDict h) key = inr (AInt 0).
Proof.
  unfold mean_or_zero. rewrite py_get_dict.
  intros [H | H]; rewrite H; reflexivity.
Qed.

Lemma max_or_zero_empty (h : gmap string pyval) key :
  absent_or_empty h key -> max_or_zero (PDict h) key = inr (AInt 0).
Proof.
  unfold max_or_zero. rewrite py_get_dict.
  intros [H | H]; rewrite H; reflexivity.
Qed.

Lemma daily_metrics_empty (j h : gmap string pyval) :
  j !! "hourly" = Some (PDict h) ->
  absent_or_empty h "temperature_2m" ->
  absent_or_empty h "windspeed_10m" ->
  absent_or_empty h "precipitation" ->
  absent_or_empty h "relativehumidity_2m" ->
  daily_metrics (PDict j) = inr (Metrics (AInt 0) (AInt 0) (AInt 0) (AInt 0)).
Proof.
  intros Hh Ht Hw Hp Hr. unfold daily_metrics. cbn [py_getitem]. rewrite Hh.
  cbn [mbind Exc_bind mret Exc_ret].
  rewrite (mean_or_zero_empty h _ Ht), (max_or_zero_empty h _ Hw),
    (mean_or_zero_empty h _ Hr).
  unfold py_get_default. cbn [py_get_method mbind Exc_bind mret Exc_ret].
  destruct Hp as [Hp | Hp]; rewrite Hp; reflexivity.
Qed.

(** A validated request answered with empty series: the metrics are
    (0, 0, 0, 0), the classifier is called on them and raises. *)
Lemma empty_series_raise (w : World) (data lat lon date : pyval) (dt : pydate)
    (resp : Response) (j h : gmap string pyval) :
  validated w data lat lon date dt ->
  http_get w (weather_request (endpoint_for w dt) lat lon date) = inr resp ->
  raise_for_status resp = inr tt ->
  json resp = inr (PDict j) ->
  j !! "hourly" = Some (PDict h) ->
  absent_or_empty h "temperature_2m" ->
  absent_or_empty h "windspeed_10m" ->
  absent_or_empty h "precipitation" ->
  absent_or_empty h "relativehumidity_2m" ->
  daily_metrics (PDict j) = inr (Metrics (AInt 0) (AInt 0) (AInt 0) (AInt 0))
  /\ run (weather w data)
     = (inl (Exn TypeError
               "<lambda>() missing 1 required keyword-only argument: 'p'"),
        [weather_request (endpoint_for w dt) lat lon date]).
Proof.
  intros Hv Hget Hstatus Hjson Hh Ht Hw Hp Hr.
  pose proof (daily_metrics_empty j h Hh Ht Hw Hp Hr) as Hm.
  split; [exact Hm |].
  assert (Hf : fst (fetch_metrics w (endpoint_for w dt) lat lon date [])
               = inr (Metrics (AInt 0) (AInt 0) (AInt 0) (AInt 0))).
  { rewrite fetch_metrics_run. cbn [fst]. rewrite Hget. cbn [mbind Exc_bind].
    by rewrite Hstatus, Hjson. }
  destruct (weather_fetch_succeeded _ _ _ _ _ _ Hv _ _ Hf) as (e & He & Hrun).
  cbn [temp wind precip humidity] in He.
  assert (Hzero : classify_conditions (AInt 0) (AInt 0) (AInt 0) (AInt 0)
                  = inl (Exn TypeError
                           "<lambda>() missing 1 required keyword-only argument: 'p'"))
    by reflexivity.
  rewrite Hzero in He. injection He as <-. exact Hrun.
Qed.

Lemma empty_series_raise_witness :
  daily_metrics (PDict {[ "hourly" := PDict {[ "temperature_2m" := PList [] ]} ]})
  = inr (Metrics (AInt 0) (AInt 0) (AInt 0) (AInt 0))
  /\ run (weather (mock_world
                     (inr (mock_response 200 "OK"
                        (inr (PDict {[ "hourly" := PDict {[ "temperature_2m" := PList [] ]} ]}))))
                     (inr (mock_response 200 "OK"
                        (inr (PDict {[ "display_name" := PAtom (AStr "Paris") ]})))))
                  (mock_body (AFloat f48_5) (AFloat f2_25) "2099-01-01"))
     = (inl (Exn TypeError
               "<lambda>() missing 1 required keyword-only argument: 'p'"),
        [weather_request forecast_url (AFloat f48_5) (AFloat f2_25) (AStr "2099-01-01")]).
Proof.
  apply (empty_series_raise
           (mock_world
              (inr (mock_response 200 "OK"
                 (inr (PDict {[ "hourly" := PDict {[ "temperature_2m" := PList [] ]} ]}))))
              (inr (mock_response 200 "OK"
                 (inr (PDict {[ "display_name" := PAtom (AStr "Paris") ]})))))
           (mock_body (AFloat f48_5) (AFloat f2_25) "2099-01-01")
           (AFloat f48_5) (AFloat f2_25) (AStr "2099-01-01") (Date 2099 1 1)
           (mock_response 200 "OK"
              (inr (PDict {[ "hourly" := PDict {[ "temperature_2m" := PList [] ]} ]})))
           {[ "hourly" := PDict {[ "temperature_2m" := PList [] ]} ]}
           {[ "temperature_2m" := PList [] ]}).
  - split; reflexivity.
  - reflexivity.
  - reflexivity.
  - reflexivity.
  - reflexivity.
  - right. reflexivity.
  - left. reflexivity.
  - left. reflexivity.
  - left. reflexivity.
Defined.

(** C2, as the code has it by design: when all four hourly series are
    absent or empty the daily metrics are (0, 0, 0, 0). On them the test of
    "Very Cold" holds, 0 being below 5, and the tests of "Very Hot" and
    "Very Windy" do not; the tests [p > 10] and [h > 80] of the last two
    rules are false at 0. So the conditions the first three rules give are
    the single "Very Cold" match, not none, and the summary sentence for it
    is "Dress warmly for outdoor activities.", not the "Great day" one. *)
Theorem empty_series_are_very_cold (j h : gmap string pyval) :
  j !! "hourly" = Some (PDict h) ->
  absent_or_empty h "temperature_2m" ->
  absent_or_empty h "windspeed_10m" ->
  absent_or_empty h "precipitation" ->
  absent_or_empty h "relativehumidity_2m" ->
  exists m : DailyMetrics,
    daily_metrics (PDict j) = inr m
    /\ m = Metrics (AInt 0) (AInt 0) (AInt 0) (AInt 0)
    /\ call very_hot_rule [temp m; wind m; precip m; humidity m] = inr false
    /\ call very_cold_rule [temp m; wind m; precip m; humidity m] = inr true
    /\ call very_windy_rule [temp m; wind m; precip m; humidity m] = inr false
    /\ body very_wet_rule {[ "p" := PAtom (precip m) ]} = inr false
    /\ body very_uncomfortable_rule {[ "h" := PAtom (humidity m) ]} = inr false
    /\ classify_loop (take 3 CONDITION_RULES)
                     [temp m; wind m; precip m; humidity m] []
       = inr [cold]
    /\ get_summary [cold] = "Dress warmly for outdoor activities.".
Proof.
  intros Hh Ht Hw Hp Hr.
  exists (Metrics (AInt 0) (AInt 0) (AInt 0) (AInt 0)).
  split; [exact (daily_metrics_empty j h Hh Ht Hw Hp Hr) |].
  cbn [temp wind precip humidity].
  rewrite call_very_hot, call_very_cold, call_very_windy.
  repeat split; reflexivity.
Qed.

Lemma empty_series_are_very_cold_witness :
  exists m : DailyMetrics,
    daily_metrics (PDict (mock_hourly {[ "temperature_2m" := PList [] ]})) = inr m
    /\ m = Metrics (AInt 0) (AInt 0) (AInt 0) (AInt 0)
    /\ call very_hot_rule [temp m; wind m; precip m; humidity m] = inr false
    /\ call very_cold_rule [temp m; wind m; precip m; humidity m] = inr true
    /\ call very_windy_rule [temp m; wind m; precip m; humidity m] = inr false
    /\ body very_wet_rule {[ "p" := PAtom (precip m) ]} = inr false
    /\ body very_uncomfortable_rule {[ "h" := PAtom (humidity m) ]} = inr false
    /\ classify_loop (take 3 CONDITION_RULES)
                     [temp m; wind m; precip m; humidity m] []
       = inr [cold]
    /\ get_summary [cold] = "Dress warmly for outdoor activities.".
Proof.
  apply (empty_series_are_very_cold
           (mock_hourly {[ "temperature_2m" := PList [] ]})
           {[ "temperature_2m" := PList [] ]}).
  - reflexivity.
  - right. reflexivity.
  - left. reflexivity.
  - left. reflexivity.
  - left. reflexivity.
Defined.

(** C2 as stated fails: with every series absent the metrics are
    (0, 0, 0, 0), yet a condition is matched, "Very Cold", the summary for
    it is not the "Great day" sentence, and the run does not end in a reply
    with that sentence and no conditions. *)
Lemma empty_series_not_a_great_day :
  daily_metrics (PDict (mock_hourly ∅))
  = inr (Metrics (AInt 0) (AInt 0) (AInt 0) (AInt 0))
  /\ call very_cold_rule [AInt 0; AInt 0; AInt 0; AInt 0] = inr true
  /\ classify_loop (take 3 CONDITION_RULES) [AInt 0; AInt 0; AInt 0; AInt 0] []
     = inr [cold]
  /\ get_summary [cold] <> "Great day for outdoor activities!"
  /\ ~ (exists name log,
          run (weather (mock_world (mock_answer (PDict (mock_hourly ∅)))
                                   (mock_answer (PDict {[ "display_name" :=
                                                            PAtom (AStr "Paris") ]})))
                       (mock_body (AFloat f48_5) (AFloat f2_25) "2099-01-01"))
          = (inr {| reply_body :=
                      WeatherBody name (PAtom (AStr "2099-01-01"))
                                  "Great day for outdoor activities!" [];
                    reply_status := 200 |}, log)).
Proof.
  repeat split; try reflexivity; [discriminate |].
  intros (name & log & H). discriminate.
Qed.

(** ** Location name *)

(** With coordinates the [.2f] format applies to, [get_location_name]
    returns: the display name when the URL is built and the call yields
    one, the formatted coordinates otherwise. *)
Lemma get_location_name_run w lat lon text log :
  coordinates_text lat lon = inr text ->
  get_location_name w lat lon log
  = match eval_fstring (url (geocode_request lat lon)) with
    | inl _ => (inr (PAtom (AStr text)), log)
    | inr _ =>
        (inr match http_get w (geocode_request lat lon) with
             | inr resp =>
                 if ok resp then
                   match json resp with
                   | inr (PDict d) =>
                       default (PAtom (AStr text)) (d !! "display_name")
                   | _ => PAtom (AStr text)
                   end
                 else PAtom (AStr text)
             | inl _ => PAtom (AStr text)
             end,
         (log ++ [geocode_request lat lon])%list)
    end.
Proof.
  intros Htext.
  unfold get_location_name, attempt, lookup_display_name.
  unfold mbind at 1, Eff_bind. unfold mbind at 1, Eff_bind. unfold lift at 1.
  destruct (eval_fstring (url (geocode_request lat lon))) as [e | []].
  - step_eff. by rewrite Htext.
  - unfold pyrequests_get. unfold mbind at 1, Eff_bind.
    destruct (http_get w (geocode_request lat lon)) as [e | resp].
    + step_eff. by rewrite Htext.
    + destruct (ok resp).
      * step_eff.
        destruct (json resp) as [e | [a | items | d]]; cbn [py_get_method raise];
          rewrite ?Htext; try reflexivity.
      * unfold mret, Eff_ret, mbind, Eff_bind, lift. by rewrite Htext.
Qed.

(** The reverse-geocoding step either yields a display name or fails in one
    of the listed ways. *)
Lemma geocode_found_or_failed w req :
  (exists name, geocode_found w req name) \/ geocode_failed w req.
Proof.
  destruct (eval_fstring (url req)) as [e | []] eqn:Hurl;
    [right; by eapply geocode_url_error |].
  destruct (http_get w req) as [e | resp] eqn:Hget;
    [right; by eapply geocode_network_error |].
  destruct (ok resp) eqn:Hok; [| right; by eapply geocode_error_status].
  destruct (json resp) as [e | v] eqn:Hjson;
    [right; by eapply geocode_bad_json |].
  destruct v as [a | items | d];
    try (right; by eapply geocode_not_an_object).
  destruct (d !! "display_name") as [name |] eqn:Hname.
  - left. exists name. by eapply display_name_present.
  - right. by eapply geocode_missing_field.
Qed.

(** What the [.2f] format applies to: the numbers that convert to float,
    every float among them. *)
Lemma format_2f_applies (v : pyval) (text : string) :
  format_2f v = inr text <->
  exists a x f, v = PAtom a /\ atom_number a = Some x
                /\ number_float x = inr f /\ text = float_format_2f f.
Proof.
  split.
  - destruct v as [a | items | d]; try discriminate.
    destruct a as [| b | n | f | s]; try discriminate; cbn [format_2f atom_number].
    + destruct (number_float (NInt (if b then 1 else 0))) as [e | f] eqn:Hf;
        [discriminate |].
      intros [= <-]. by exists (ABool b), (NInt (if b then 1 else 0)), f.
    + destruct (number_float (NInt n)) as [e | f] eqn:Hf; [discriminate |].
      intros [= <-]. by exists (AInt n), (NInt n), f.
    + intros [= <-]. by exists (AFloat f), (NFloat f), f.
  - intros (a & x & f & -> & Ha & Hf & ->).
    destruct a; try discriminate; cbn [format_2f]; rewrite Ha;
      cbn [mbind Exc_bind]; by rewrite Hf.
Qed.

(** C5, as the code has it: for every latitude and longitude the [.2f]
    format applies to (floats, and the ints and booleans that convert to
    float), [get_location_name] returns and never raises: when the URL is
    built, the reverse-geocoding call succeeds and its JSON has a
    display-name field, that field; on any failure (an error building the
    URL, network error, non-success status, body that is not JSON or not an
    object, missing field) the two coordinates formatted to two decimals
    and joined by ", ". *)
Theorem location_name_never_fails (w : World) (lat lon : pyval)
    (lat_text lon_text : string) (log : list Request) :
  format_2f lat = inr lat_text ->
  format_2f lon = inr lon_text ->
  exists name : pyval,
    fst (get_location_name w lat lon log) = inr name
    /\ (forall v, geocode_found w (geocode_request lat lon) v -> name = v)
    /\ (geocode_failed w (geocode_request lat lon) ->
        name = PAtom (AStr (lat_text ++ ", " ++ lon_text))).
Proof.
  intros Hlat Hlon.
  assert (Htext : coordinates_text lat lon = inr (lat_text ++ ", " ++ lon_text))
    by (unfold coordinates_text; by rewrite Hlat, Hlon).
  rewrite (get_location_name_run w lat lon _ log Htext).
  destruct (eval_fstring (url (geocode_request lat lon))) as [e | []] eqn:Hurl;
    cbn [fst]; eexists; (split; [reflexivity |]); split.
  - intros v [resp d Hurl' _ _ _ _]. congruence.
  - reflexivity.
  - intros v [resp d _ Hget Hok Hjson Hname]. by rewrite Hget, Hok, Hjson, Hname.
  - intros [e Hurl' | e Hget | resp Hget Hok | resp e Hget Hok Hjson
            | resp v Hget Hok Hjson Hv | resp d Hget Hok Hjson Hname];
      [congruence | ..];
      rewrite Hget; try rewrite Hok; try rewrite Hjson; try reflexivity.
    + destruct v as [a | items | d]; try reflexivity. by destruct (Hv d).
    + by rewrite Hname.
Qed.

Lemma location_name_never_fails_witness :
  exists name : pyval,
    fst (get_location_name
           (mock_world (inl (Exn Timeout "timed out"))
                       (inr (mock_response 500 "Internal Server Error"
                               (inl (Exn JSONDecodeError "")))))
           (PAtom (AInt 48)) (PAtom (AFloat f2_25)) [])
    = inr name
    /\ name = PAtom (AStr "48.00, 2.25").
Proof.
  destruct (location_name_never_fails
              (mock_world (inl (Exn Timeout "timed out"))
                          (inr (mock_response 500 "Internal Server Error"
                                  (inl (Exn JSONDecodeError "")))))
              (PAtom (AInt 48)) (PAtom (AFloat f2_25)) "48.00" "2.25" []
              eq_refl eq_refl) as (name & Hrun & _ & Hfailed).
  exists name. split; [exact Hrun |].
  apply Hfailed. eapply geocode_error_status; reflexivity.
Defined.

(** C5 as stated fails: a latitude given as a string passes the checks of
    the handler, and on it the function raises outward, the fallback being
    formatted outside the [try]. *)
Lemma location_name_fails_on_str :
  fst (get_location_name (mock_world (inl (Exn Timeout "timed out"))
                                     (inl (Exn Timeout "timed out")))
                         (PAtom (AStr "48.5")) (PAtom (AFloat f2_25)) [])
  = inl (Exn ValueError "Unknown format code 'f' for object of type 'str'")
  /\ ~ (exists name,
          fst (get_location_name (mock_world (inl (Exn Timeout "timed out"))
                                             (inl (Exn Timeout "timed out")))
                                 (PAtom (AStr "48.5")) (PAtom (AFloat f2_25)) [])
          = inr name).
Proof.
  split; [reflexivity |]. intros [name H]. discriminate.
Qed.

(** Coordinates given as ints are converted to float and formatted alike. *)
Example location_name_int_coordinates :
  get_location_name (mock_world (inl (Exn Timeout "timed out"))
                                (inl (Exn ConnectionError "unreachable")))
                    (PAtom (AInt 48)) (PAtom (AInt (-2))) []
  = (inr (PAtom (AStr "48.00, -2.00")),
     [geocode_request (PAtom (AInt 48)) (PAtom (AInt (-2)))]).
Proof. reflexivity. Qed.

(** A display name in the answer is returned as it is. *)
Example location_name_found :
  get_location_name
    (mock_world (inl (Exn Timeout "timed out"))
                (inr (mock_response 200 "OK"
                        (inr (PDict {[ "display_name" := PAtom (AStr "Paris") ]})))))
    (PAtom (AFloat f48_5)) (PAtom (AFloat f2_25)) []
  = (inr (PAtom (AStr "Paris")),
     [geocode_request (PAtom (AFloat f48_5)) (PAtom (AFloat f2_25))]).
Proof. reflexivity. Qed.

(** The [.2f] format rounds the exact binary value, ties to even. *)
Example format_one_eighth :
  format_2f (PAtom (AFloat (S754_finite false 1 (-3)))) = inr "0.12".
Proof. reflexivity. Qed.

(** ** Runs of the handler *)

(** The handler never replies with status 200: every request that gets as
    far as the classifier ends in its [TypeError]. *)
Lemma weather_never_replies_200 w data log r log' :
  weather w data log = (inr r, log') ->
  reply_status r = 400 \/ reply_status r = 502.
Proof.
  intros H. destruct data as [a | items | d]; try discriminate.
  destruct (weather_first_check w d log) as (Hmissing & Hbad & Hgood).
  destruct (truthy (default (PAtom ANone) (d !! "lat"))
            && truthy (default (PAtom ANone) (d !! "lon"))
            && truthy (default (PAtom ANone) (d !! "date"))) eqn:Ht.
  - destruct (parse_date w (default (PAtom ANone) (d !! "date"))) as [e | dt] eqn:Hp.
    + rewrite (Hbad eq_refl e eq_refl) in H. injection H as <- _. by left.
    + specialize (Hgood eq_refl dt eq_refl).
      destruct (fst (fetch_metrics w (endpoint_for w dt)
                       (default (PAtom ANone) (d !! "lat"))
                       (default (PAtom ANone) (d !! "lon"))
                       (default (PAtom ANone) (d !! "date")) log)) as [e | m] eqn:Hf.
      * rewrite (weather_fetch_failed _ _ _ _ _ _ Hgood _ _ Hf) in H.
        injection H as <- _. by right.
      * destruct (weather_fetch_succeeded _ _ _ _ _ _ Hgood _ _ Hf) as (e & _ & Hw).
        rewrite Hw in H. discriminate.
  - rewrite (Hmissing eq_refl) in H. injection H as <- _. by left.
Qed.

(** A body that is not a JSON object has no [get]: the handler raises. *)
Example weather_body_not_an_object w :
  run (weather w (PList []))
  = (inl (Exn AttributeError "'list' object has no attribute 'get'"), []).
Proof. reflexivity. Qed.

(** A date that does not parse is answered with the other 400. *)
Example weather_invalid_date :
  run (weather (mock_world (inl (Exn Timeout "timed out")) (inl (Exn Timeout "timed out")))
               (mock_body (AFloat f48_5) (AFloat f2_25) "13/25/2024"))
  = (inr invalid_date_reply, []).
Proof. reflexivity. Qed.

(** A past date goes to the archive endpoint, a future one to the forecast
    endpoint. *)
Example weather_past_date :
  snd (run (weather (mock_world (inl (Exn Timeout "timed out"))
                                (inl (Exn Timeout "timed out")))
                    (mock_body (AFloat f48_5) (AFloat f2_25) "2000-01-01")))
  = [weather_request archive_url (AFloat f48_5) (AFloat f2_25) (AStr "2000-01-01")].
Proof. reflexivity. Qed.

Example weather_future_date :
  snd (run (weather (mock_world (inl (Exn Timeout "timed out"))
                                (inl (Exn Timeout "timed out")))
                    (mock_body (AFloat f48_5) (AFloat f2_25) "2099-01-01")))
  = [weather_request forecast_url (AFloat f48_5) (AFloat f2_25) (AStr "2099-01-01")].
Proof. reflexivity. Qed.

(** A mean temperature of 40 reaches the "Very Hot" rule, which matches;
    the call of the fourth rule then raises all the same. *)
Example classify_mean_temperature_40 :
  classify_loop (take 1 CONDITION_RULES) [AInt 40; AInt 0; AInt 0; AInt 0] []
  = inr [hot]
  /\ classify_conditions (AInt 40) (AInt 0) (AInt 0) (AInt 0)
     = inl (Exn TypeError "<lambda>() missing 1 required keyword-only argument: 'p'").
Proof. split; reflexivity. Qed.

(* ===================================================================== *)
(** * Further properties of the code                                      *)
(* ===================================================================== *)

(** ** The loop of the classifier, over any rule table *)

Lemma classify_loop_app rules1 rules2 args results :
  classify_loop (rules1 ++ rules2) args results
  = classify_loop rules1 args results ≫= classify_loop rules2 args.
Proof.
  revert results. induction rules1 as [| r rules1 IH]; intros results;
    [reflexivity |].
  cbn [app classify_loop].
  destruct (call (rule r) args) as [e | matched]; [reflexivity |].
  cbn [mbind Exc_bind]. apply IH.
Qed.

Lemma classify_loop_filter rules args results :
  Forall (rule_returns args) rules ->
  classify_loop rules args results
  = inr (results ++ map render (List.filter (rule_matches args) rules))%list.
Proof.
  revert results. induction rules as [| r rules IH]; intros results Hall.
  - cbn. by rewrite app_nil_r.
  - apply Forall_cons in Hall as [[b Hb] Hall].
    cbn [classify_loop List.filter]. unfold rule_matches at 1. rewrite Hb.
    cbn [mbind Exc_bind]. rewrite (IH _ Hall).
    destruct b; [| reflexivity]. cbn [map]. by rewrite <- app_assoc.
Qed.

(** X1: whatever the rule table, when the loop of [classify_conditions]
    returns, every rule's call has returned and the result is what was
    there before followed by the rendered rows of exactly the rules whose
    test holds, in table order. *)
Theorem classify_loop_returns (rules : list ConditionRule) (args : list atom)
    (results out : list ConditionMatch) :
  classify_loop rules args results = inr out ->
  Forall (rule_returns args) rules
  /\ out = (results ++ map render (List.filter (rule_matches args) rules))%list.
Proof.
  intros Hrun.
  assert (Hall : Forall (rule_returns args) rules).
  { revert results Hrun. induction rules as [| r rules IH]; intros results Hrun;
      [constructor |].
    cbn [classify_loop] in Hrun.
    destruct (call (rule r) args) as [e | b] eqn:Hb; [discriminate |].
    constructor; [by exists b | exact (IH _ Hrun)]. }
  split; [exact Hall |].
  rewrite (classify_loop_filter _ _ _ Hall) in Hrun. by injection Hrun.
Qed.

Lemma classify_loop_returns_witness :
  Forall (rule_returns [AInt 40; AInt 50; AInt 0; AInt 0]) (take 3 CONDITION_RULES)
  /\ [hot; windy]
     = ([] ++ map render (List.filter (rule_matches [AInt 40; AInt 50; AInt 0; AInt 0])
                                      (take 3 CONDITION_RULES)))%list.
Proof.
  apply (classify_loop_returns (take 3 CONDITION_RULES)
           [AInt 40; AInt 50; AInt 0; AInt 0] [] [hot; windy]).
  reflexivity.
Defined.

(** X2: the loop raises exactly the exception of the first rule whose call
    raises: the rules before it are evaluated, the rules after it never
    are, and the results gathered so far are lost. *)
Theorem classify_loop_first_raise (before after : list ConditionRule)
    (r : ConditionRule) (args : list atom) (results : list ConditionMatch)
    (e : exn) :
  Forall (rule_returns args) before ->
  call (rule r) args = inl e ->
  classify_loop (before ++ r :: after) args results = inl e.
Proof.
  intros Hbefore Hr.
  rewrite classify_loop_app, (classify_loop_filter _ _ _ Hbefore).
  cbn [mbind Exc_bind classify_loop]. by rewrite Hr.
Qed.

Lemma classify_loop_first_raise_witness :
  classify_loop (take 3 CONDITION_RULES ++ Rule "Very Wet" very_wet_rule "🌧️"
                   "⚠️ Very Wet" "Bring rain gear and waterproof shoes." "darkblue"
                   :: drop 4 CONDITION_RULES)
                [AInt 40; AInt 50; AInt 20; AInt 90] []
  = inl (Exn TypeError "<lambda>() missing 1 required keyword-only argument: 'p'").
Proof.
  apply classify_loop_first_raise.
  - repeat constructor; eexists; reflexivity.
  - reflexivity.
Defined.

(** ** The summary depends on the labels alone *)

Lemma same_truth (b1 b2 : bool) (P1 P2 : Prop) :
  (b1 = true <-> P1) -> (b2 = true <-> P2) -> (P1 <-> P2) -> b1 = b2.
Proof. destruct b1, b2; intuition congruence. Qed.

Lemma has_label_head c cs : has_label (label c) (c :: cs).
Proof. exists c. split; [left | reflexivity]. Qed.

(** X3: [get_summary] looks at nothing but which labels occur: two
    sequences with the same labels present get the same sentence, whatever
    their order, their repetitions and their other fields. *)
Theorem get_summary_labels_only (cs1 cs2 : list ConditionMatch) :
  (forall l, has_label l cs1 <-> has_label l cs2) ->
  get_summary cs1 = get_summary cs2.
Proof.
  intros Hsame.
  assert (Hi : existsb (label_in ["Very Hot"; "Very Wet"; "Very Uncomfortable"]) cs1
               = existsb (label_in ["Very Hot"; "Very Wet"; "Very Uncomfortable"]) cs2).
  { apply (same_truth _ _ _ _ (existsb_label_in cs1) (existsb_label_in cs2)).
    by rewrite !Hsame. }
  assert (Hw : existsb (fun c => String.eqb (label c) "Very Windy") cs1
               = existsb (fun c => String.eqb (label c) "Very Windy") cs2).
  { apply (same_truth _ _ _ _ (existsb_label _ cs1) (existsb_label _ cs2)), Hsame. }
  assert (Hc : existsb (fun c => String.eqb (label c) "Very Cold") cs1
               = existsb (fun c => String.eqb (label c) "Very Cold") cs2).
  { apply (same_truth _ _ _ _ (existsb_label _ cs1) (existsb_label _ cs2)), Hsame. }
  unfold get_summary. rewrite Hi, Hw, Hc.
  destruct cs1 as [| c1 cs1], cs2 as [| c2 cs2]; try reflexivity.
  - destruct (has_label_nil (label c2)). apply Hsame, has_label_head.
  - destruct (has_label_nil (label c1)). apply Hsame, has_label_head.
Qed.

Lemma get_summary_labels_only_witness :
  get_summary [cold; windy]
  = get_summary [windy; Match "Very Cold" "" "" "" ""; windy].
Proof.
  apply get_summary_labels_only. intros l.
  rewrite !has_label_cons. cbn [label cold windy].
  split; intros H; repeat destruct H as [H | H]; auto;
    by apply has_label_nil in H.
Defined.

(** ** The daily metrics *)

Lemma bind_inr {A B} (m : Exc A) (f : A -> Exc B) (r : B) :
  m ≫= f = inr r -> exists x, m = inr x /\ f x = inr r.
Proof. destruct m as [e | x]; [discriminate | eauto]. Qed.

Lemma py_add_number acc x r : py_add acc x = inr r -> is_number r = true.
Proof.
  unfold py_add.
  destruct (atom_number acc) as [[m | f] |], (atom_number x) as [[n | g] |];
    try discriminate; cbn [number_float mbind Exc_bind mret Exc_ret].
  - by intros [= <-].
  - destruct (float_of_int m); [discriminate | by intros [= <-]].
  - destruct (float_of_int n); [discriminate | by intros [= <-]].
  - by intros [= <-].
Qed.

Lemma sum_items_number acc items r :
  is_number acc = true -> sum_items acc items = inr r -> is_number r = true.
Proof.
  revert acc. induction items as [| x items IH]; intros acc Hacc; cbn [sum_items].
  - by intros [= <-].
  - intros H. apply bind_inr in H as (acc' & Hadd & H).
    apply (IH acc'); [by apply py_add_number in Hadd | exact H].
Qed.

Lemma py_sum_number v r : py_sum v = inr r -> is_number r = true.
Proof.
  unfold py_sum. intros H. apply bind_inr in H as (items & _ & H).
  by apply (sum_items_number (AInt 0) items).
Qed.

Lemma py_truediv_number a b r : py_truediv a b = inr r -> is_number r = true.
Proof.
  unfold py_truediv.
  destruct (atom_number a) as [[m | f] |], (atom_number b) as [[n | g] |];
    try discriminate; cbn [number_float mbind Exc_bind mret Exc_ret].
  - destruct (n =? 0); [discriminate |].
    destruct (SFdiv _ _ _ _); try discriminate; by intros [= <-].
  - destruct (float_of_int m); [discriminate |].
    destruct g; try discriminate; by intros [= <-].
  - destruct (float_of_int n) as [| []]; try discriminate; by intros [= <-].
  - destruct g; try discriminate; by intros [= <-].
Qed.

Lemma mean_or_zero_number h key r :
  mean_or_zero h key = inr r -> is_number r = true.
Proof.
  unfold mean_or_zero. intros H. apply bind_inr in H as (present & _ & H).
  destruct (truthy present); [| by injection H as <-].
  apply bind_inr in H as (xs & _ & H). apply bind_inr in H as (total & _ & H).
  apply bind_inr in H as (ys & _ & H). apply bind_inr in H as (count & _ & H).
  by apply py_truediv_number in H.
Qed.

(** X4: whenever the daily metrics are derived, the mean temperature, the
    summed precipitation and the mean humidity are numbers (an int or a
    float), whatever JSON the provider sent. *)
Theorem daily_metrics_numbers (weather_json : pyval) (m : DailyMetrics) :
  daily_metrics weather_json = inr m ->
  is_number (temp m) = true
  /\ is_number (precip m) = true
  /\ is_number (humidity m) = true.
Proof.
  unfold daily_metrics. intros H.
  apply bind_inr in H as (h & _ & H).
  apply bind_inr in H as (t & Ht & H).
  apply bind_inr in H as (wd & _ & H).
  apply bind_inr in H as (series & _ & H).
  apply bind_inr in H as (p & Hp & H).
  apply bind_inr in H as (hm & Hh & H).
  injection H as <-. cbn [temp precip humidity].
  repeat split; eauto using mean_or_zero_number, py_sum_number.
Qed.

Lemma daily_metrics_numbers_witness :
  is_number (AFloat (S754_finite false 6755399441055744 (-52))) = true
  /\ is_number (AInt 3) = true
  /\ is_number (AInt 0) = true.
Proof.
  apply (daily_metrics_numbers
           (PDict {[ "hourly" := PDict (<["temperature_2m" := PList [AInt 1; AInt 2]]>
                                        {[ "precipitation" := PList [AInt 3] ]}) ]})
           (Metrics (AFloat (S754_finite false 6755399441055744 (-52)))
                    (AInt 0) (AInt 3) (AInt 0))).
  reflexivity.
Defined.

(** The wind figure need not be a number: the maximum of a one-item series
    is that item, whatever it is. *)
Example wind_may_be_null :
  daily_metrics (PDict {[ "hourly" := PDict {[ "windspeed_10m" := PList [ANone] ]} ]})
  = inr (Metrics (AInt 0) ANone (AInt 0) (AInt 0)).
Proof. reflexivity. Qed.

Lemma sum_items_raises acc items :
  (exists x, x ∈ items /\ is_number x = false) ->
  exists e, sum_items acc items = inl e.
Proof.
  revert acc. induction items as [| y items IH]; intros acc (x & Hin & Hx).
  - by apply elem_of_nil in Hin.
  - cbn [sum_items]. destruct (py_add acc y) as [e | acc'] eqn:Hadd;
      [by exists e |].
    cbn [mbind Exc_bind]. apply IH.
    apply elem_of_cons in Hin as [-> | Hin]; [| by exists x].
    exfalso. unfold py_add in Hadd. unfold is_number in Hx.
    destruct y; try discriminate;
      cbn [atom_number] in Hadd; by destruct (atom_number acc) as [[] |].
Qed.

(** ** What the provider's JSON does to a validated request *)

Section AnsweredRequest.

Context (w : World) (data lat lon date : pyval) (dt : pydate) (v : pyval).
Hypothesis Hvalid : validated w data lat lon date dt.
Hypothesis Hanswer :
  provider_answers w (weather_request (endpoint_for w dt) lat lon date) v.

Lemma fetch_answered log :
  fst (fetch_metrics w (endpoint_for w dt) lat lon date log) = daily_metrics v.
Proof.
  destruct Hanswer as (resp & Hget & Hstatus & Hjson).
  rewrite fetch_metrics_run. cbn [fst]. rewrite Hget. cbn [mbind Exc_bind].
  by rewrite Hstatus, Hjson.
Qed.

(** Metrics that cannot be derived give the 502. *)
Lemma weather_metrics_failed e :
  daily_metrics v = inl e ->
  run (weather w data)
  = (inr (unavailable_reply e),
     [weather_request (endpoint_for w dt) lat lon date]).
Proof.
  intros He. unfold run.
  apply (weather_fetch_failed w data lat lon date dt Hvalid [] e).
  by rewrite fetch_answered.
Qed.

End AnsweredRequest.

(** The steps of [daily_metrics] on a JSON object with an ["hourly"] entry. *)
Lemma daily_metrics_hourly (j : gmap string pyval) (h : pyval) :
  j !! "hourly" = Some h ->
  daily_metrics (PDict j)
  = (temp ← mean_or_zero h "temperature_2m";
     wind ← max_or_zero h "windspeed_10m";
     series ← py_get_default h "precipitation" (PList [AInt 0]);
     precip ← py_sum series;
     humidity ← mean_or_zero h "relativehumidity_2m";
     mret (Metrics temp wind precip humidity)).
Proof. intros Hh. unfold daily_metrics. cbn [py_getitem]. by rewrite Hh. Qed.

Lemma mean_or_zero_raises (h : gmap string pyval) key items :
  h !! key = Some (PList items) ->
  (exists x, x ∈ items /\ is_number x = false) ->
  exists e, mean_or_zero (PDict h) key = inl e.
Proof.
  intros Hkey Hbad. unfold mean_or_zero. rewrite py_get_dict, Hkey.
  cbn [default mbind Exc_bind py_getitem]. rewrite Hkey.
  destruct items as [| y items];
    [destruct Hbad as (x & Hin & _); by apply elem_of_nil in Hin |].
  cbn [truthy mbind Exc_bind mret Exc_ret]. unfold py_sum.
  cbn [py_iter mbind Exc_bind mret Exc_ret].
  destruct (sum_items_raises (AInt 0) (y :: items) Hbad) as [e He].
  exists e. by rewrite He.
Qed.

Lemma precipitation_raises (h : gmap string pyval) items :
  h !! "precipitation" = Some (PList items) ->
  (exists x, x ∈ items /\ is_number x = false) ->
  exists e, py_get_default (PDict h) "precipitation" (PList [AInt 0]) ≫= py_sum
            = inl e.
Proof.
  intros Hkey Hbad. unfold py_get_default.
  cbn [py_get_method mbind Exc_bind mret Exc_ret]. rewrite Hkey.
  cbn [default]. unfold py_sum. cbn [py_iter mbind Exc_bind mret Exc_ret].
  apply (sum_items_raises (AInt 0) items Hbad).
Qed.

(** X5: a reading that is not a number (a null for a missing hour, a
    string) in the temperature, precipitation or humidity series is not
    skipped: the sum raises and a validated request gets the 502, with the
    weather request as its only outbound call. *)
Theorem non_number_reading_gives_502 (w : World) (data lat lon date : pyval)
    (dt : pydate) (j h : gmap string pyval) (key : string) (items : list atom) :
  validated w data lat lon date dt ->
  provider_answers w (weather_request (endpoint_for w dt) lat lon date) (PDict j) ->
  j !! "hourly" = Some (PDict h) ->
  key ∈ ["temperature_2m"; "precipitation"; "relativehumidity_2m"] ->
  h !! key = Some (PList items) ->
  (exists x, x ∈ items /\ is_number x = false) ->
  exists e,
    run (weather w data)
    = (inr {| reply_body := ErrorBody ("Weather data unavailable: " ++ exn_str e);
              reply_status := 502 |},
       [weather_request (endpoint_for w dt) lat lon date]).
Proof.
  intros Hv Hanswer Hh Hkey Hitems Hbad.
  assert (Hraise : exists e, daily_metrics (PDict j) = inl e).
  { rewrite (daily_metrics_hourly j _ Hh).
    repeat (apply elem_of_cons in Hkey as [-> | Hkey]);
      [| | | by apply elem_of_nil in Hkey].
    - destruct (mean_or_zero_raises h _ items Hitems Hbad) as [e He].
      exists e. by rewrite He.
    - destruct (mean_or_zero (PDict h) "temperature_2m") as [e | t];
        [by exists e |].
      destruct (max_or_zero (PDict h) "windspeed_10m") as [e | wd];
        [by exists e |].
      cbn [mbind Exc_bind].
      destruct (precipitation_raises h items Hitems Hbad) as [e He].
      exists e. revert He. unfold py_get_default.
      cbn [py_get_method mbind Exc_bind mret Exc_ret]. by intros ->.
    - destruct (mean_or_zero (PDict h) "temperature_2m") as [e | t];
        [by exists e |].
      destruct (max_or_zero (PDict h) "windspeed_10m") as [e | wd];
        [by exists e |].
      cbn [mbind Exc_bind].
      destruct (py_get_default (PDict h) "precipitation" (PList [AInt 0]))
        as [e | series]; [by exists e |].
      cbn [mbind Exc_bind].
      destruct (py_sum series) as [e | p]; [by exists e |].
      cbn [mbind Exc_bind].
      destruct (mean_or_zero_raises h _ items Hitems Hbad) as [e He].
      exists e. by rewrite He. }
  destruct Hraise as [e He]. exists e.
  exact (weather_metrics_failed w data lat lon date dt (PDict j) Hv Hanswer e He).
Qed.

Lemma non_number_reading_gives_502_witness :
  exists e,
    run (weather (mock_world
                    (mock_answer (PDict (mock_hourly
                       {[ "temperature_2m" := PList [AInt 21; ANone; AInt 23] ]})))
                    mock_down)
                 (mock_body (AFloat f48_5) (AFloat f2_25) "2099-01-01"))
    = (inr {| reply_body := ErrorBody ("Weather data unavailable: " ++ exn_str e);
              reply_status := 502 |},
       [weather_request forecast_url (AFloat f48_5) (AFloat f2_25) (AStr "2099-01-01")]).
Proof.
  apply (non_number_reading_gives_502
           (mock_world
              (mock_answer (PDict (mock_hourly
                 {[ "temperature_2m" := PList [AInt 21; ANone; AInt 23] ]})))
              mock_down)
           (mock_body (AFloat f48_5) (AFloat f2_25) "2099-01-01")
           (AFloat f48_5) (AFloat f2_25) (AStr "2099-01-01") (Date 2099 1 1)
           (mock_hourly {[ "temperature_2m" := PList [AInt 21; ANone; AInt 23] ]})
           {[ "temperature_2m" := PList [AInt 21; ANone; AInt 23] ]}
           "temperature_2m" [AInt 21; ANone; AInt 23]).
  - split; reflexivity.
  - eexists. repeat split; reflexivity.
  - reflexivity.
  - left.
  - reflexivity.
  - exists ANone. split; [right; left | reflexivity].
Defined.

(** X6: the precipitation series has no guard of the kind the other three
    have: given as null, a number or a boolean it is handed to [sum], which
    cannot iterate it, and a validated request gets the 502. *)
Theorem precipitation_not_a_series_gives_502 (w : World)
    (data lat lon date : pyval) (dt : pydate) (j h : gmap string pyval) (a : atom) :
  validated w data lat lon date dt ->
  provider_answers w (weather_request (endpoint_for w dt) lat lon date) (PDict j) ->
  j !! "hourly" = Some (PDict h) ->
  h !! "precipitation" = Some (PAtom a) ->
  (forall s, a <> AStr s) ->
  exists e,
    run (weather w data)
    = (inr {| reply_body := ErrorBody ("Weather data unavailable: " ++ exn_str e);
              reply_status := 502 |},
       [weather_request (endpoint_for w dt) lat lon date]).
Proof.
  intros Hv Hanswer Hh Hp Ha.
  assert (Hraise : exists e, daily_metrics (PDict j) = inl e).
  { rewrite (daily_metrics_hourly j _ Hh).
    destruct (mean_or_zero (PDict h) "temperature_2m") as [e | t];
      [by exists e |].
    destruct (max_or_zero (PDict h) "windspeed_10m") as [e | wd];
      [by exists e |].
    cbn [mbind Exc_bind]. unfold py_get_default.
    cbn [py_get_method mbind Exc_bind mret Exc_ret]. rewrite Hp. cbn [default].
    destruct a as [| b | n | f | s]; try (eexists; reflexivity).
    by destruct (Ha s). }
  destruct Hraise as [e He]. exists e.
  exact (weather_metrics_failed w data lat lon date dt (PDict j) Hv Hanswer e He).
Qed.

Lemma precipitation_not_a_series_gives_502_witness :
  exists e,
    run (weather (mock_world
                    (mock_answer (PDict (mock_hourly {[ "precipitation" := PAtom ANone ]})))
                    mock_down)
                 (mock_body (AFloat f48_5) (AFloat f2_25) "2099-01-01"))
    = (inr {| reply_body := ErrorBody ("Weather data unavailable: " ++ exn_str e);
              reply_status := 502 |},
       [weather_request forecast_url (AFloat f48_5) (AFloat f2_25) (AStr "2099-01-01")]).
Proof.
  apply (precipitation_not_a_series_gives_502
           (mock_world
              (mock_answer (PDict (mock_hourly {[ "precipitation" := PAtom ANone ]})))
              mock_down)
           (mock_body (AFloat f48_5) (AFloat f2_25) "2099-01-01")
           (AFloat f48_5) (AFloat f2_25) (AStr "2099-01-01") (Date 2099 1 1)
           (mock_hourly {[ "precipitation" := PAtom ANone ]})
           {[ "precipitation" := PAtom ANone ]} ANone).
  - split; reflexivity.
  - eexists. repeat split; reflexivity.
  - reflexivity.
  - reflexivity.
  - discriminate.
Defined.

(** X7: an ["hourly"] entry that is not an object (null, a list, a string,
    a number) has no [get]: a validated request gets the 502 whose detail
    is the text of the [AttributeError]. *)
Theorem hourly_not_an_object_gives_502 (w : World) (data lat lon date : pyval)
    (dt : pydate) (j : gmap string pyval) (h : pyval) :
  validated w data lat lon date dt ->
  provider_answers w (weather_request (endpoint_for w dt) lat lon date) (PDict j) ->
  j !! "hourly" = Some h ->
  (forall d, h <> PDict d) ->
  run (weather w data)
  = (inr {| reply_body :=
              ErrorBody ("Weather data unavailable: '" ++ type_name h
                         ++ "' object has no attribute 'get'");
            reply_status := 502 |},
     [weather_request (endpoint_for w dt) lat lon date]).
Proof.
  intros Hv Hanswer Hh Hnot.
  apply (weather_metrics_failed w data lat lon date dt (PDict j) Hv Hanswer
           (Exn AttributeError ("'" ++ type_name h ++ "' object has no attribute 'get'"))).
  rewrite (daily_metrics_hourly j _ Hh).
  destruct h as [a | items | d]; [reflexivity | reflexivity |].
  by destruct (Hnot d).
Qed.

Lemma hourly_not_an_object_gives_502_witness :
  run (weather (mock_world (mock_answer (PDict {[ "hourly" := PAtom ANone ]})) mock_down)
               (mock_body (AFloat f48_5) (AFloat f2_25) "2099-01-01"))
  = (inr {| reply_body :=
              ErrorBody ("Weather data unavailable: '" ++ type_name (PAtom ANone)
                         ++ "' object has no attribute 'get'");
            reply_status := 502 |},
     [weather_request forecast_url (AFloat f48_5) (AFloat f2_25) (AStr "2099-01-01")]).
Proof.
  apply (hourly_not_an_object_gives_502
           (mock_world (mock_answer (PDict {[ "hourly" := PAtom ANone ]})) mock_down)
           (mock_body (AFloat f48_5) (AFloat f2_25) "2099-01-01")
           (AFloat f48_5) (AFloat f2_25) (AStr "2099-01-01") (Date 2099 1 1)
           {[ "hourly" := PAtom ANone ]} (PAtom ANone)).
  - split; reflexivity.
  - eexists. repeat split; reflexivity.
  - reflexivity.
  - discriminate.
Defined.

Lemma mean_or_zero_falsy (h : gmap string pyval) key :
  absent_or_falsy h key -> mean_or_zero (PDict h) key = inr (AInt 0).
Proof.
  intros H. apply absent_or_falsy_get in H.
  unfold mean_or_zero. rewrite py_get_dict. cbn [mbind Exc_bind]. by rewrite H.
Qed.

Lemma max_or_zero_falsy (h : gmap string pyval) key :
  absent_or_falsy h key -> max_or_zero (PDict h) key = inr (AInt 0).
Proof.
  intros H. apply absent_or_falsy_get in H.
  unfold max_or_zero. rewrite py_get_dict. cbn [mbind Exc_bind]. by rewrite H.
Qed.

(** X8: for the temperature, wind and humidity series any falsy JSON value
    (null, 0, false, the empty string, an empty list or object) counts as
    no data, like an absent key: with the precipitation series absent or
    empty, the daily metrics are then (0, 0, 0, 0). *)
Theorem falsy_series_count_as_absent (j h : gmap string pyval) :
  j !! "hourly" = Some (PDict h) ->
  absent_or_falsy h "temperature_2m" ->
  absent_or_falsy h "windspeed_10m" ->
  absent_or_falsy h "relativehumidity_2m" ->
  absent_or_empty h "precipitation" ->
  daily_metrics (PDict j) = inr (Metrics (AInt 0) (AInt 0) (AInt 0) (AInt 0)).
Proof.
  intros Hh Ht Hw Hr Hp. rewrite (daily_metrics_hourly j _ Hh).
  rewrite (mean_or_zero_falsy h _ Ht), (max_or_zero_falsy h _ Hw),
    (mean_or_zero_falsy h _ Hr).
  cbn [mbind Exc_bind]. unfold py_get_default.
  cbn [py_get_method mbind Exc_bind mret Exc_ret].
  destruct Hp as [Hp | Hp]; rewrite Hp; reflexivity.
Qed.

Lemma falsy_series_count_as_absent_witness :
  daily_metrics
    (PDict (mock_hourly (<["temperature_2m" := PAtom ANone]>
                         (<["windspeed_10m" := PAtom (AInt 0)]>
                          {[ "relativehumidity_2m" := PAtom (AStr "") ]}))))
  = inr (Metrics (AInt 0) (AInt 0) (AInt 0) (AInt 0)).
Proof.
  apply (falsy_series_count_as_absent _
           (<["temperature_2m" := PAtom ANone]>
            (<["windspeed_10m" := PAtom (AInt 0)]>
             {[ "relativehumidity_2m" := PAtom (AStr "") ]}))).
  - reflexivity.
  - reflexivity.
  - reflexivity.
  - reflexivity.
  - left. reflexivity.
Defined.

(** X9: whenever the provider's data is good enough for the daily metrics
    to be derived, a validated request ends in a [TypeError] that nothing
    catches, with the weather request as its only outbound call: the reply
    with the summary is never built. *)
Theorem derived_metrics_end_in_type_error (w : World) (data lat lon date : pyval)
    (dt : pydate) (v : pyval) (m : DailyMetrics) :
  validated w data lat lon date dt ->
  provider_answers w (weather_request (endpoint_for w dt) lat lon date) v ->
  daily_metrics v = inr m ->
  exists e,
    exn_cls e = TypeError
    /\ run (weather w data)
       = (inl e, [weather_request (endpoint_for w dt) lat lon date]).
Proof.
  intros Hv Hanswer Hm. unfold run.
  destruct (weather_fetch_succeeded w data lat lon date dt Hv [] m)
    as (e & He & Hrun).
  { by rewrite (fetch_answered w lat lon date dt v Hanswer). }
  destruct (classify_conditions_never_returns (temp m) (wind m) (precip m)
              (humidity m)) as (e' & He' & Hcls).
  exists e. split; [congruence | exact Hrun].
Qed.

Lemma derived_metrics_end_in_type_error_witness :
  exists e,
    exn_cls e = TypeError
    /\ run (weather (mock_world
                       (mock_answer (PDict (mock_hourly
                          {[ "temperature_2m" := PList [AInt 40] ]})))
                       (mock_answer (PDict {[ "display_name" := PAtom (AStr "Paris") ]})))
                    (mock_body (AFloat f48_5) (AFloat f2_25) "2000-01-01"))
       = (inl e, [weather_request archive_url (AFloat f48_5) (AFloat f2_25)
                                  (AStr "2000-01-01")]).
Proof.
  apply (derived_metrics_end_in_type_error
           (mock_world
              (mock_answer (PDict (mock_hourly {[ "temperature_2m" := PList [AInt 40] ]})))
              (mock_answer (PDict {[ "display_name" := PAtom (AStr "Paris") ]})))
           (mock_body (AFloat f48_5) (AFloat f2_25) "2000-01-01")
           (AFloat f48_5) (AFloat f2_25) (AStr "2000-01-01") (Date 2000 1 1)
           (PDict (mock_hourly {[ "temperature_2m" := PList [AInt 40] ]}))
           (Metrics (AFloat (S754_finite false 5629499534213120 (-47)))
                    (AInt 0) (AInt 0) (AInt 0))).
  - split; reflexivity.
  - eexists. repeat split; reflexivity.
  - reflexivity.
Defined.

(** ** Every run of the handler *)

(** The five ways a run of [weather] can end. *)
Lemma weather_cases (w : World) (data : pyval) :
  ((forall d, data <> PDict d)
   /\ exists e, exn_cls e = AttributeError /\ run (weather w data) = (inl e, []))
  \/ ((exists d, data = PDict d) /\ run (weather w data) = (inr missing_reply, []))
  \/ ((exists d, data = PDict d) /\ run (weather w data) = (inr invalid_date_reply, []))
  \/ (exists lat lon date dt e,
        validated w data lat lon date dt
        /\ run (weather w data)
           = (inr (unavailable_reply e),
              [weather_request (endpoint_for w dt) lat lon date]))
  \/ (exists lat lon date dt e,
        validated w data lat lon date dt
        /\ exn_cls e = TypeError
        /\ run (weather w data)
           = (inl e, [weather_request (endpoint_for w dt) lat lon date])).
Proof.
  destruct data as [a | items | d].
  - left. split; [discriminate |].
    eexists. split; [| reflexivity]. reflexivity.
  - left. split; [discriminate |].
    eexists. split; [| reflexivity]. reflexivity.
  - right. destruct (weather_first_check w d []) as (Hmissing & Hbad & Hgood).
    destruct (truthy (default (PAtom ANone) (d !! "lat"))
              && truthy (default (PAtom ANone) (d !! "lon"))
              && truthy (default (PAtom ANone) (d !! "date"))) eqn:Ht.
    + destruct (parse_date w (default (PAtom ANone) (d !! "date")))
        as [e | dt] eqn:Hp.
      * right; left. split; [by exists d |]. exact (Hbad eq_refl e eq_refl).
      * specialize (Hgood eq_refl dt eq_refl). right; right.
        destruct (fst (fetch_metrics w (endpoint_for w dt)
                         (default (PAtom ANone) (d !! "lat"))
                         (default (PAtom ANone) (d !! "lon"))
                         (default (PAtom ANone) (d !! "date")) [])) as [e | m] eqn:Hf.
        -- left. do 4 eexists. exists e. split; [exact Hgood |].
           exact (weather_fetch_failed _ _ _ _ _ _ Hgood _ _ Hf).
        -- right.
           destruct (weather_fetch_succeeded _ _ _ _ _ _ Hgood _ _ Hf)
             as (e & He & Hw).
           destruct (classify_conditions_never_returns (temp m) (wind m)
                       (precip m) (humidity m)) as (e' & He' & Hcls).
           do 4 eexists. exists e.
           split; [exact Hgood |]. split; [congruence | exact Hw].
    + left. split; [by exists d |]. exact (Hmissing eq_refl).
Qed.

(** X11: a request whose three fields are truthy but whose date is not a
    str, or is a str that [strptime] rejects, is answered with status 400
    and [{"error": "Invalid date format, use YYYY-MM-DD"}], before any
    outbound call. *)
Theorem unparsable_date_rejected (w : World) (d : gmap string pyval)
    (lat lon date : pyval) :
  d !! "lat" = Some lat -> d !! "lon" = Some lon -> d !! "date" = Some date ->
  truthy lat && truthy lon && truthy date = true ->
  match date with
  | PAtom (AStr s) => exists e, strptime w s = inl e
  | _ => True
  end ->
  run (weather w (PDict d))
  = (inr {| reply_body := ErrorBody "Invalid date format, use YYYY-MM-DD";
            reply_status := 400 |}, []).
Proof.
  intros Hlat Hlon Hdate Ht Hbad.
  destruct (weather_first_check w d []) as (_ & Hinvalid & _).
  rewrite Hlat, Hlon, Hdate in Hinvalid. cbn [default] in Hinvalid.
  assert (Hparse : exists e, parse_date w date = inl e).
  { destruct date as [[| b | n | f | s] | items | d'];
      try (eexists; reflexivity). exact Hbad. }
  destruct Hparse as [e He]. exact (Hinvalid Ht e He).
Qed.

Lemma unparsable_date_rejected_witness :
  run (weather (mock_world mock_down mock_down)
               (PDict (<["lat" := PAtom (AFloat f48_5)]>
                       (<["lon" := PAtom (AFloat f2_25)]>
                        {[ "date" := PAtom (AInt 20240615) ]}))))
  = (inr {| reply_body := ErrorBody "Invalid date format, use YYYY-MM-DD";
            reply_status := 400 |}, []).
Proof.
  apply (unparsable_date_rejected (mock_world mock_down mock_down) _
           (PAtom (AFloat f48_5)) (PAtom (AFloat f2_25)) (PAtom (AInt 20240615))).
  - reflexivity.
  - reflexivity.
  - reflexivity.
  - reflexivity.
  - exact I.
Defined.

(** X12: the only exceptions that leave the view function uncaught are
    what [get_json] raises on a body that is not JSON ([BadRequest]), the
    [AttributeError] of a decoded body that is not a JSON object, both
    before any outbound call, and a [TypeError] raised after the weather
    request; no error of the provider call or of the JSON lookups
    escapes. *)
Theorem escaping_exceptions (w : World) (request_json : Exc pyval) (e : exn)
    (log : list Request) :
  run (weather_view w request_json) = (inl e, log) ->
  (request_json = inl e /\ log = [])
  \/ (exists data, request_json = inr data /\ (forall d, data <> PDict d)
                   /\ exn_cls e = AttributeError /\ log = [])
  \/ (exists d, request_json = inr (PDict d) /\ exn_cls e = TypeError
                /\ exists base_url lat lon date,
                     log = [weather_request base_url lat lon date]).
Proof.
  intros Hrun. destruct request_json as [e0 | data].
  - left. by injection Hrun as <- <-.
  - right. change (run (weather w data) = (inl e, log)) in Hrun.
    destruct (weather_cases w data)
      as [(Hnot & e' & Hcls & H) | [(_ & H) | [(_ & H)
          | [(lat & lon & date & dt & e' & _ & H)
             | (lat & lon & date & dt & e' & Hv & Hcls & H)]]]];
      rewrite H in Hrun; try discriminate.
    + injection Hrun as <- <-. left. by exists data.
    + injection Hrun as <- <-. right.
      destruct Hv as [Hlat _ _ _ _]. destruct data as [a | items | d];
        try discriminate.
      exists d. repeat split; [exact Hcls | by eauto].
Qed.

Lemma escaping_exceptions_witness :
  (@inl exn pyval (Exn BadRequest "400 Bad Request: Failed to decode JSON object")
   = inl (Exn BadRequest "400 Bad Request: Failed to decode JSON object")
   /\ @nil Request = [])
  \/ (exists data,
        @inl exn pyval (Exn BadRequest "400 Bad Request: Failed to decode JSON object")
        = inr data
        /\ (forall d, data <> PDict d)
        /\ exn_cls (Exn BadRequest "400 Bad Request: Failed to decode JSON object")
           = AttributeError
        /\ @nil Request = [])
  \/ (exists d,
        @inl exn pyval (Exn BadRequest "400 Bad Request: Failed to decode JSON object")
        = inr (PDict d)
        /\ exn_cls (Exn BadRequest "400 Bad Request: Failed to decode JSON object")
           = TypeError
        /\ exists base_url lat lon date,
             @nil Request = [weather_request base_url lat lon date]).
Proof.
  apply (escaping_exceptions (mock_world mock_down mock_down)
           (inl (Exn BadRequest "400 Bad Request: Failed to decode JSON object"))).
  reflexivity.
Defined.

(** X13: a run of [weather] makes no outbound call at all when it replies
    400, and otherwise exactly one, the weather request to the archive or
    the forecast endpoint; the reverse-geocoding request is never sent. *)
Theorem outbound_calls (w : World) (data : pyval) :
  let log := snd (run (weather w data)) in
  (log = []
   \/ exists base_url lat lon date,
        (base_url = archive_url \/ base_url = forecast_url)
        /\ log = [weather_request base_url lat lon date])
  /\ (forall r, fst (run (weather w data)) = inr r -> reply_status r = 400 ->
      log = [])
  /\ (forall lat lon, geocode_request lat lon ∉ log).
Proof.
  intros log. subst log.
  assert (Hendpoint : forall dt, endpoint_for w dt = archive_url
                                 \/ endpoint_for w dt = forecast_url).
  { intros dt. unfold endpoint_for. destruct (date_ltb _ _); auto. }
  destruct (weather_cases w data)
    as [(_ & e & _ & H) | [(_ & H) | [(_ & H)
        | [(lat & lon & date & dt & e & _ & H)
           | (lat & lon & date & dt & e & _ & _ & H)]]]];
    rewrite H; cbn [fst snd]; repeat split;
    try (by left); try (intros ? ?; by apply not_elem_of_nil);
    try (right; exists (endpoint_for w dt), lat, lon, date; by split);
    try discriminate.
  - intros r [= <-]. discriminate.
  - intros glat glon Hin. apply list_elem_of_singleton in Hin. discriminate.
  - intros glat glon Hin. apply list_elem_of_singleton in Hin. discriminate.
Qed.

Lemma outbound_calls_witness :
  geocode_request (PAtom (AFloat f48_5)) (PAtom (AFloat f2_25))
  ∉ snd (run (weather (mock_world
                         (mock_answer (PDict (mock_hourly ∅)))
                         (mock_answer (PDict {[ "display_name" := PAtom (AStr "Paris") ]})))
                      (mock_body (AFloat f48_5) (AFloat f2_25) "2099-01-01"))).
Proof.
  pose proof (outbound_calls
                (mock_world
                   (mock_answer (PDict (mock_hourly ∅)))
                   (mock_answer (PDict {[ "display_name" := PAtom (AStr "Paris") ]})))
                (mock_body (AFloat f48_5) (AFloat f2_25) "2099-01-01")) as (_ & _ & H).
  apply H.
Defined.

(** X10: every reply [weather] makes is one of its three error replies:
    the two 400s and the 502. It never builds the reply with the location
    name, the summary and the conditions. *)
Theorem every_reply_is_an_error (w : World) (data : pyval) (r : Reply)
    (log : list Request) :
  run (weather w data) = (inr r, log) ->
  r = {| reply_body := ErrorBody "Missing lat, lon, or date"; reply_status := 400 |}
  \/ r = {| reply_body := ErrorBody "Invalid date format, use YYYY-MM-DD";
            reply_status := 400 |}
  \/ exists e, r = {| reply_body := ErrorBody ("Weather data unavailable: "
                                               ++ exn_str e);
                      reply_status := 502 |}.
Proof.
  intros Hrun.
  destruct (weather_cases w data)
    as [(_ & e & _ & H) | [(_ & H) | [(_ & H)
        | [(lat & lon & date & dt & e & _ & H)
           | (lat & lon & date & dt & e & _ & _ & H)]]]];
    rewrite H in Hrun; try discriminate; injection Hrun as <- _.
  - by left.
  - by right; left.
  - right; right. by exists e.
Qed.

Lemma every_reply_is_an_error_witness :
  unavailable_reply (Exn Timeout "timed out")
  = {| reply_body := ErrorBody "Missing lat, lon, or date"; reply_status := 400 |}
  \/ unavailable_reply (Exn Timeout "timed out")
     = {| reply_body := ErrorBody "Invalid date format, use YYYY-MM-DD";
          reply_status := 400 |}
  \/ exists e, unavailable_reply (Exn Timeout "timed out")
               = {| reply_body := ErrorBody ("Weather data unavailable: "
                                             ++ exn_str e);
                    reply_status := 502 |}.
Proof.
  apply (every_reply_is_an_error
           (mock_world mock_down mock_down)
           (mock_body (AFloat f48_5) (AFloat f2_25) "2099-01-01")
           (unavailable_reply (Exn Timeout "timed out"))
           [weather_request forecast_url (AFloat f48_5) (AFloat f2_25)
                            (AStr "2099-01-01")]).
  reflexivity.
Defined.

(** ** The wind figure *)

Lemma xgt_fin_skip my ey mb eb mr er :
  xgt (XFin my ey) (XFin mb eb) = false ->
  xgt (XFin mr er) (XFin mb eb) = true ->
  xgt (XFin my ey) (XFin mr er) = false.
Proof.
  unfold xgt. set (k := Z.min (Z.min ey eb) er).
  rewrite !(xcompare_fin_at k) by lia.
  destruct (Z.compare_spec (my * 2 ^ (ey - k)) (mb * 2 ^ (eb - k)));
    destruct (Z.compare_spec (mr * 2 ^ (er - k)) (mb * 2 ^ (eb - k)));
    destruct (Z.compare_spec (my * 2 ^ (ey - k)) (mr * 2 ^ (er - k)));
    try discriminate; try reflexivity; lia.
Qed.

Lemma xgt_fin_trans mx ex my ey mz ez :
  xgt (XFin mx ex) (XFin my ey) = true ->
  xgt (XFin my ey) (XFin mz ez) = true ->
  xgt (XFin mx ex) (XFin mz ez) = true.
Proof.
  unfold xgt. set (k := Z.min (Z.min ex ey) ez).
  rewrite !(xcompare_fin_at k) by lia.
  destruct (Z.compare_spec (mx * 2 ^ (ex - k)) (my * 2 ^ (ey - k)));
    destruct (Z.compare_spec (my * 2 ^ (ey - k)) (mz * 2 ^ (ez - k)));
    destruct (Z.compare_spec (mx * 2 ^ (ex - k)) (mz * 2 ^ (ez - k)));
    try discriminate; try reflexivity; lia.
Qed.

Ltac xgt_cases :=
  unfold xgt in *; cbn [xcompare] in *;
  repeat match goal with s : bool |- _ => destruct s end;
  try discriminate; try reflexivity.

(** A value not above [b] is not above anything that is above [b]. *)
Lemma xgt_skip y b r : xgt y b = false -> xgt r b = true -> xgt y r = false.
Proof.
  destruct y as [| sy | my ey], b as [| sb | mb eb], r as [| sr | mr er];
    try apply xgt_fin_skip; xgt_cases.
Qed.

Lemma xgt_trans x y z : xgt x y = true -> xgt y z = true -> xgt x z = true.
Proof.
  destruct x as [| sx | mx ex], y as [| sy | my ey], z as [| sz | mz ez];
    try apply xgt_fin_trans; xgt_cases.
Qed.

Lemma xgt_irreflexive x : xgt x x = false.
Proof.
  destruct x as [| s | m e]; [reflexivity | by destruct s |].
  unfold xgt. rewrite (xcompare_fin_at e) by lia. by rewrite Z.compare_refl.
Qed.

Lemma xgt_asymmetric x y : xgt x y = true -> xgt y x = false.
Proof.
  intros H. destruct (xgt y x) eqn:H'; [| reflexivity].
  pose proof (xgt_trans x y x H H') as Hxx. by rewrite xgt_irreflexive in Hxx.
Qed.

Lemma py_gt_exact a b x y :
  atom_exact a = Some x -> atom_exact b = Some y -> py_gt a b = inr (xgt x y).
Proof.
  intros Ha Hb. unfold py_gt, py_compare, xgt. rewrite Ha, Hb.
  by destruct (xcompare x y) as [[] |].
Qed.

(** The scan of [max] over numbers: it returns one of the items, and none of
    the items scanned compares greater than it. *)
Lemma max_items_numbers items : forall best xb,
  atom_exact best = Some xb ->
  Forall (fun a => is_number a = true) items ->
  exists r xr,
    max_items best items = inr r
    /\ r ∈ best :: items
    /\ atom_exact r = Some xr
    /\ (xr = xb \/ xgt xr xb = true)
    /\ forall y xy, y ∈ items -> atom_exact y = Some xy -> xgt xy xr = false.
Proof.
  induction items as [| x items IH]; intros best xb Hbest Hall.
  - exists best, xb. repeat split; [left | done | by left |].
    intros y xy Hin. by apply elem_of_nil in Hin.
  - apply Forall_cons in Hall as [Hx Hall].
    unfold is_number in Hx. destruct (atom_exact x) as [xx |] eqn:Hxx;
      [| discriminate].
    cbn [max_items]. rewrite (py_gt_exact x best xx xb Hxx Hbest).
    cbn [mbind Exc_bind]. destruct (xgt xx xb) eqn:Hgt.
    + destruct (IH x xx Hxx Hall) as (r & xr & Hrun & Hin & Hr & Hge & Hmax).
      exists r, xr. repeat split; [done | by right | done | |].
      * right. destruct Hge as [-> | Hge]; [done | by eapply xgt_trans].
      * intros y xy Hy Hxy. apply elem_of_cons in Hy as [-> | Hy];
          [| by eapply Hmax].
        assert (xy = xx) as -> by congruence.
        destruct Hge as [-> | Hge];
          [apply xgt_irreflexive | by apply xgt_asymmetric].
    + destruct (IH best xb Hbest Hall) as (r & xr & Hrun & Hin & Hr & Hge & Hmax).
      exists r, xr. repeat split; [done | | done | done |].
      * apply elem_of_cons in Hin as [-> | Hin]; [left | by do 2 right].
      * intros y xy Hy Hxy. apply elem_of_cons in Hy as [-> | Hy];
          [| by eapply Hmax].
        assert (xy = xx) as -> by congruence.
        destruct Hge as [-> | Hge]; [done | by eapply xgt_skip].
Qed.

(** X14: for a non-empty wind series of numbers, the wind figure is one of
    the readings and no reading compares greater than it. *)
Theorem wind_is_the_greatest_reading (h : gmap string pyval) (items : list atom) :
  h !! "windspeed_10m" = Some (PList items) ->
  items <> [] ->
  Forall (fun a => is_number a = true) items ->
  exists x,
    max_or_zero (PDict h) "windspeed_10m" = inr x
    /\ x ∈ items
    /\ forall y, y ∈ items -> py_gt y x = inr false.
Proof.
  intros Hkey Hne Hall. destruct items as [| first rest]; [done |].
  pose proof Hall as Hall'. apply Forall_cons in Hall' as [Hfirst Hrest].
  unfold is_number in Hfirst.
  destruct (atom_exact first) as [xf |] eqn:Hxf; [| discriminate].
  destruct (max_items_numbers rest first xf Hxf Hrest)
    as (r & xr & Hrun & Hin & Hr & Hge & Hmax).
  exists r. split; [| split; [exact Hin |]].
  - unfold max_or_zero. rewrite py_get_dict, Hkey.
    cbn [default truthy mbind Exc_bind py_getitem]. rewrite Hkey.
    unfold py_max. cbn [py_iter mbind Exc_bind mret Exc_ret]. exact Hrun.
  - intros y Hy.
    assert (Hnum : is_number y = true)
      by (rewrite Forall_forall in Hall; by apply Hall).
    unfold is_number in Hnum.
    destruct (atom_exact y) as [xy |] eqn:Hxy; [| discriminate].
    rewrite (py_gt_exact y r xy xr Hxy Hr). f_equal.
    apply elem_of_cons in Hy as [-> | Hy]; [| by eapply Hmax].
    assert (xy = xf) as -> by congruence.
    destruct Hge as [-> | Hge];
      [apply xgt_irreflexive | by apply xgt_asymmetric].
Qed.

Lemma wind_is_the_greatest_reading_witness :
  exists x,
    max_or_zero (PDict {[ "windspeed_10m" :=
                            PList [AInt 12; AFloat (S754_finite false 61 (-1)); AInt 30] ]})
                "windspeed_10m" = inr x
    /\ x ∈ [AInt 12; AFloat (S754_finite false 61 (-1)); AInt 30]
    /\ forall y, y ∈ [AInt 12; AFloat (S754_finite false 61 (-1)); AInt 30] ->
                 py_gt y x = inr false.
Proof.
  apply (wind_is_the_greatest_reading
           {[ "windspeed_10m" :=
                PList [AInt 12; AFloat (S754_finite false 61 (-1)); AInt 30] ]}).
  - reflexivity.
  - discriminate.
  - repeat constructor.
Defined.

(** ** Location name, whatever the coordinates *)

(** X15: [get_location_name] sends at most one request: exactly one when
    the f-string of the URL evaluates, none when it raises (an int of more
    than 4300 digits). With coordinates the [.2f] format does not apply to
    (a str, null, a list) it raises the formatting error outward in every
    world, even when the reverse-geocoding call brought a display name. *)
Theorem location_name_one_call (w : World) (lat lon : pyval) (log : list Request) :
  (eval_fstring (url (geocode_request lat lon)) = inr tt ->
   snd (get_location_name w lat lon log) = (log ++ [geocode_request lat lon])%list)
  /\ (forall e, eval_fstring (url (geocode_request lat lon)) = inl e ->
      snd (get_location_name w lat lon log) = log)
  /\ (forall e, coordinates_text lat lon = inl e ->
      fst (get_location_name w lat lon log) = inl e).
Proof.
  destruct (coordinates_text lat lon) as [e | text] eqn:Htext.
  - assert (Hrun : get_location_name w lat lon log
                   = (inl e,
                      match eval_fstring (url (geocode_request lat lon)) with
                      | inl _ => log
                      | inr _ => (log ++ [geocode_request lat lon])%list
                      end)).
    { unfold get_location_name, attempt, lookup_display_name.
      unfold mbind at 1, Eff_bind. unfold mbind at 1, Eff_bind. unfold lift at 1.
      destruct (eval_fstring (url (geocode_request lat lon))) as [e' | []].
      - step_eff. by rewrite Htext.
      - unfold pyrequests_get. unfold mbind at 1, Eff_bind.
        destruct (http_get w (geocode_request lat lon)) as [e' | resp].
        + step_eff. by rewrite Htext.
        + destruct (ok resp).
          * step_eff.
            destruct (json resp) as [e' | [a | items | d]];
              cbn [py_get_method raise]; rewrite ?Htext; reflexivity.
          * unfold mret, Eff_ret. step_eff. by rewrite Htext. }
    rewrite Hrun. cbn [fst snd]. repeat split.
    + by intros ->.
    + by intros e' ->.
    + by intros e' [= <-].
  - rewrite (get_location_name_run w lat lon text log Htext). repeat split.
    + by intros ->.
    + by intros e' ->.
    + discriminate.
Qed.

Lemma location_name_one_call_witness :
  fst (get_location_name
         (mock_world mock_down
                     (mock_answer (PDict {[ "display_name" := PAtom (AStr "Paris") ]})))
         (PAtom (AStr "48.5")) (PAtom (AFloat f2_25)) [])
  = inl (Exn ValueError "Unknown format code 'f' for object of type 'str'").
Proof.
  apply (location_name_one_call
           (mock_world mock_down
                       (mock_answer (PDict {[ "display_name" := PAtom (AStr "Paris") ]})))
           (PAtom (AStr "48.5")) (PAtom (AFloat f2_25)) []).
  reflexivity.
Defined.

(** At the digit limit: the text of [10 ^ 4299] has 4300 digits and the
    request is sent; [10 ^ 4300] has one more, the f-string raises inside
    the [try] and nothing is sent. Either int is too large for a float, so
    the fallback raises outward. *)
Example location_name_digit_limit :
  get_location_name (mock_world mock_down mock_down)
                    (PAtom (AInt (10 ^ 4299))) (PAtom (AFloat f2_25)) []
  = (inl (Exn OverflowError "int too large to convert to float"),
     [geocode_request (PAtom (AInt (10 ^ 4299))) (PAtom (AFloat f2_25))])
  /\ get_location_name (mock_world mock_down mock_down)
                       (PAtom (AInt (10 ^ 4300))) (PAtom (AFloat f2_25)) []
     = (inl (Exn OverflowError "int too large to convert to float"), []).
Proof. split; vm_compute; reflexivity. Qed.

(** ** What the handler reads of the request body *)

(** X16: [weather] reads nothing of the request body but its lat, lon and
    date entries: two JSON objects that agree on these three keys get the
    same outcome and cause the same outbound calls, whatever else they
    hold. *)
Theorem only_three_fields_read (w : World) (d1 d2 : gmap string pyval) :
  d1 !! "lat" = d2 !! "lat" ->
  d1 !! "lon" = d2 !! "lon" ->
  d1 !! "date" = d2 !! "date" ->
  run (weather w (PDict d1)) = run (weather w (PDict d2)).
Proof.
  intros Hlat Hlon Hdate. unfold run, weather, py_get, py_get_default.
  cbn [py_get_method mbind Exc_bind mret Exc_ret].
  by rewrite Hlat, Hlon, Hdate.
Qed.

Lemma only_three_fields_read_witness :
  run (weather (mock_world mock_down mock_down)
               (mock_body (AFloat f48_5) (AFloat f2_25) "2099-01-01"))
  = run (weather (mock_world mock_down mock_down)
                 (PDict (<["units" := PAtom (AStr "imperial")]>
                         (<["lat" := PAtom (AFloat f48_5)]>
                          (<["lon" := PAtom (AFloat f2_25)]>
                           {[ "date" := PAtom (AStr "2099-01-01") ]}))))).
Proof.
  apply only_three_fields_read; reflexivity.
Defined.
